(** * ADA compliance pipeline

    A shallow embedding of the decision logic of the ADA compliance
    analyzer:

    - [ada_compliance/compliance_engine.py]: the rule engine
      ([evaluate], the four [_check_*] methods) and the prioritizer
      ([_prioritize_violations]);
    - [ada_compliance/cost_estimator.py]: [estimate], [_estimate_timeline],
      [estimate_phased_approach], [generate_cost_summary];
    - [ada_compliance/analyzer.py]: [_calculate_compliance_score].

    Python values are modelled as follows.  An [int] is a [Z].  A [float]
    is an IEEE 754 binary64 number, represented by the Standard Library's
    [spec_float] and computed with its operations at precision 53, so
    that every product, quotient and comparison rounds exactly as
    CPython's does.  A dict used as a record is a [Record]; a key that
    may be missing is an [option] field.  A dict used as a table is a
    [gmap].  A call that may raise returns an [outcome].  A severity is
    one of the three keys of the [severity_weights] table.  Strings are
    ASCII, and the inch marks of two texts are left out. *)

From Stdlib Require Import ZArith List String Ascii Bool Lia SpecFloat DecimalString.
From stdpp Require Import gmap strings list sorting.

Local Open Scope Z_scope.

(** ** Python semantics used by the source *)

Module Py.

Inductive exn :=
| KeyError (key : string)
| OverflowError
| ValueError
| ZeroDivisionError.

(** The result of a call: a value, or a raised exception. *)
Inductive outcome (A : Type) :=
| Returns (a : A)
| Raises (e : exn).
Arguments Returns {A} a.
Arguments Raises {A} e.

#[global] Instance outcome_ret : MRet outcome := @Returns.
#[global] Instance outcome_bind : MBind outcome := λ A B f m,
  match m with
  | Returns a => f a
  | Raises e => Raises e
  end.

(** *** binary64 *)

Definition prec : Z := 53.
Definition emax : Z := 1024.

Abbreviation float := spec_float.

Definition fmul : float → float → float := SFmul prec emax.
Definition fdiv : float → float → float := SFdiv prec emax.

(** The float nearest to the integer [n] (ties to even). *)
Definition of_int (n : Z) : float := binary_normalize prec emax n 0 false.

(** A decimal literal [num/den] of the source text, e.g. [0.12] is
    [literal 12 100]: the float nearest to the written value. *)
Definition literal (num den : Z) : float := fdiv (of_int num) (of_int den).

(** [float(n)] as performed implicitly by [n * x] and [n / x]. *)
Definition float_of_int (n : Z) : outcome float :=
  match of_int n with
  | S754_infinity _ => Raises OverflowError
  | x => Returns x
  end.

(** [a / b] on two ints: the correctly rounded quotient. *)
Definition truediv_int (a b : Z) : outcome float :=
  match b with
  | 0 => Raises ZeroDivisionError
  | _ =>
      let sign := xorb (a <? 0) (b <? 0) in
      match a with
      | 0 => Returns (S754_zero sign)
      | _ =>
          let '(q, e, l) := SFdiv_core_binary prec emax (Z.abs a) 0 (Z.abs b) 0 in
          match binary_round_aux prec emax sign q e l with
          | S754_infinity _ => Raises OverflowError
          | x => Returns x
          end
      end
  end.

(** [int(x)]: truncation toward zero. *)
Definition int (x : float) : outcome Z :=
  match x with
  | S754_zero _ => Returns 0
  | S754_finite s m e => Returns (cond_Zopp s (Z.shiftl (Z.pos m) e))
  | S754_infinity _ => Raises OverflowError
  | S754_nan => Raises ValueError
  end.

(** [int(n * x)] for an int [n] and a float [x]. *)
Definition int_mul (n : Z) (x : float) : outcome Z :=
  n ← float_of_int n; int (fmul n x).

(** [round(x)]: the nearest integer, ties to even. *)
Definition round (x : float) : outcome Z :=
  match x with
  | S754_zero _ => Returns 0
  | S754_finite s m e =>
      if 0 <=? e then Returns (cond_Zopp s (Z.shiftl (Z.pos m) e))
      else
        let d := 2 ^ (- e) in
        let q := Z.pos m / d in
        let r := Z.pos m mod d in
        let q' := match 2 * r ?= d with
                  | Lt => q
                  | Gt => q + 1
                  | Eq => if Z.even q then q else q + 1
                  end in
        Returns (cond_Zopp s q')
  | S754_infinity _ => Raises OverflowError
  | S754_nan => Raises ValueError
  end.

(** Truth value of a float: false exactly for [0.0] and [-0.0]. *)
Definition truthy (x : float) : bool := negb (SFeqb x (S754_zero false)).

Definition lt (x y : float) : bool := SFltb x y.
Definition gt (x y : float) : bool := SFltb y x.

(** *** str *)

Definition lower_ascii (c : ascii) : ascii :=
  let n := nat_of_ascii c in
  if (Nat.leb 65 n && Nat.leb n 90)%bool then ascii_of_nat (n + 32) else c.

(** [s.lower()] on ASCII text. *)
Fixpoint lower (s : string) : string :=
  match s with
  | EmptyString => EmptyString
  | String c t => String (lower_ascii c) (lower t)
  end.

(** [needle in hay]. *)
Fixpoint contains (needle hay : string) : bool :=
  (String.prefix needle hay ||
   match hay with
   | EmptyString => false
   | String _ t => contains needle t
   end)%bool.

(** [str(n)] and [f"{n}"] for an int. *)
Definition str (n : Z) : string := NilZero.string_of_int (Z.to_int n).

(** [sorted(l, key=key)] and [l.sort(key=key)] with keys compared by
    [le]: the stable sort.  An element is placed before the first
    element whose key is not smaller, so that equal keys keep the
    order of the input. *)
Section Sort.
Context {A K : Type} (le : K → K → bool) (key : A → K).

Fixpoint insert_sorted (x : A) (l : list A) : list A :=
  match l with
  | [] => [x]
  | y :: l' => if le (key x) (key y) then x :: l else y :: insert_sorted x l'
  end.

Fixpoint sorted (l : list A) : list A :=
  match l with
  | [] => []
  | x :: l' => insert_sorted x (sorted l')
  end.
End Sort.

(** Order on tuples of two ints. *)
Definition pair_le (a b : Z * Z) : bool :=
  ((a.1 <? b.1) || ((a.1 =? b.1) && (a.2 <=? b.2)))%bool.

End Py.

(** ** Data model *)

Inductive Severity := High | Medium | Low.

(** The measured quantity a violation reports, before it is formatted
    into the ['detected_value'] text. *)
Inductive Detected :=
| DetSlope (slope : Py.float)
| DetCrossSlope (cross_slope : Py.float)
| DetMissing
| DetLanding (w l : Py.float)
| DetWidth (width : Py.float)
| DetNoRamps
| DetQuality (quality : Py.float)
| DetGap (max_gap : Py.float)
| DetVertical (vertical : Py.float).

(** A violation dict.  ['priority'], ['cost'] and ['labor_hours'] are
    keys that later stages add or overwrite.  Of the two display texts,
    ['detected_value'] is kept as the quantity it formats and
    ['standard_value'], a fixed text per rule, is left out; neither is
    read by any decision. *)
Record Violation := {
  type : string;
  severity : Severity;
  detected_value : Detected;
  location : string;
  reference : string;
  bbox : list Py.float;
  recommendation : string;
  priority : option Z;
  cost : option Z;
  labor_hours : option Z
}.

Definition set_cost (c : Z) (v : Violation) : Violation :=
  {| type := type v; severity := severity v; detected_value := detected_value v;
     location := location v; reference := reference v; bbox := bbox v;
     recommendation := recommendation v; priority := priority v;
     cost := Some c; labor_hours := labor_hours v |}.

Definition set_priority (p : Z) (v : Violation) : Violation :=
  {| type := type v; severity := severity v; detected_value := detected_value v;
     location := location v; reference := reference v; bbox := bbox v;
     recommendation := recommendation v; priority := Some p;
     cost := cost v; labor_hours := labor_hours v |}.

Definition set_labor_hours (h : Z) (v : Violation) : Violation :=
  {| type := type v; severity := severity v; detected_value := detected_value v;
     location := location v; reference := reference v; bbox := bbox v;
     recommendation := recommendation v; priority := priority v;
     cost := cost v; labor_hours := Some h |}.

(** A detection dict.  [id_key] is the optional ['id'] entry and
    [object_id] the value of [id(detection)]. *)
Record Detection := {
  class_name : string;
  confidence : Py.float;
  d_bbox : list Py.float;
  id_key : option Z;
  object_id : Z
}.

(** [detection.get('id', id(detection))] *)
Definition det_id_of (detection : Detection) : Z :=
  default (object_id detection) (id_key detection).

(** The measurements dict: one optional table per measurement kind, each
    keyed by detection id. *)
Record Measurements := {
  slope : option (gmap Z Py.float);
  cross_slope : option (gmap Z Py.float);
  width : option (gmap Z Py.float);
  detectable_warning : option (gmap Z bool);
  landing_size : option (gmap Z (Py.float * Py.float));
  max_gap : option (gmap Z Py.float);
  vertical_change : option (gmap Z Py.float);
  has_curb_ramps : option (gmap Z bool);
  marking_quality : option (gmap Z Py.float)
}.

(** ** compliance_engine.py: ComplianceRuleEngine *)

Definition MAX_CURB_RAMP_SLOPE : Py.float := Py.literal 833 100.
Definition MAX_CROSS_SLOPE : Py.float := Py.literal 20 10.
Definition MIN_SIDEWALK_WIDTH : Z := 36.
Definition MIN_CLEAR_PATH : Z := 36.
Definition MAX_SURFACE_GAP : Py.float := Py.literal 5 10.
Definition MAX_VERTICAL_CHANGE : Py.float := Py.literal 25 100.
Definition MIN_LANDING_SIZE : Z := 36.

(** An entry of the [rules] dict built by [_load_rules]; only its
    ['reference'] is read by the checks. *)
Record Rule := {
  rule_key : string;
  rule_description : string;
  rule_reference : string
}.

Definition _load_rules : list Rule :=
  [ {| rule_key := "curb_ramp_slope";
       rule_description := "Curb ramp running slope must not exceed 1:12 (8.33%)";
       rule_reference := "ADAAG 406.2" |};
    {| rule_key := "cross_slope";
       rule_description := "Cross slope must not exceed 1:48 (2%)";
       rule_reference := "ADAAG 406.3" |};
    {| rule_key := "sidewalk_width";
       rule_description := "Minimum continuous clear width of 36 inches";
       rule_reference := "ADAAG 403.5.1" |};
    {| rule_key := "surface_gap";
       rule_description := "Surface openings not to exceed 0.5 inch";
       rule_reference := "ADAAG 302.3" |};
    {| rule_key := "detectable_warning";
       rule_description := "Detectable warning surfaces required at curb ramps";
       rule_reference := "ADAAG 705" |};
    {| rule_key := "landing_size";
       rule_description := "Landing must be 36 x 36 minimum";
       rule_reference := "ADAAG 406.4" |} ].

(** [self.rules[key]['reference']] for the keys the checks use. *)
Definition rules_reference (key : string) : string :=
  match List.find (λ r, String.eqb (rule_key r) key) _load_rules with
  | Some r => rule_reference r
  | None => EmptyString
  end.

(** A freshly reported violation: the rule engine sets ['priority'] and
    leaves ['cost'] and ['labor_hours'] to the later stages. *)
Definition report (ty : string) (sev : Severity) (det : Detected)
    (loc ref : string) (detection : Detection) (rec : string) (prio : Z)
  : Violation :=
  {| type := ty; severity := sev; detected_value := det; location := loc;
     reference := ref; bbox := d_bbox detection; recommendation := rec;
     priority := Some prio; cost := None; labor_hours := None |}.

(** [table.get(det_id)] followed by [if value and test(value)]. *)
Definition measured {V} (table : option (gmap Z V)) (det_id : Z)
    (failing : V → bool) (mk : V → Violation) : list Violation :=
  match table with
  | Some t =>
      match t !! det_id with
      | Some value => if failing value then [mk value] else []
      | None => []
      end
  | None => []
  end.

(** [table.get(det_id, False)] followed by [if not value]. *)
Definition required (table : option (gmap Z bool)) (det_id : Z)
    (v : Violation) : list Violation :=
  match table with
  | Some t => if negb (default false (t !! det_id)) then [v] else []
  | None => []
  end.

Definition _check_curb_ramp (detection : Detection) (measurements : Measurements)
  : list Violation :=
  let det_id := det_id_of detection in
  measured (slope measurements) det_id
    (λ slope, Py.truthy slope && Py.gt slope MAX_CURB_RAMP_SLOPE)
    (λ slope, report "Curb Ramp Slope" High (DetSlope slope) "Detected curb ramp"
                (rules_reference "curb_ramp_slope") detection
                "Reconstruct ramp to meet 1:12 maximum slope" 1)
  ++ measured (cross_slope measurements) det_id
    (λ cross_slope, Py.truthy cross_slope && Py.gt cross_slope MAX_CROSS_SLOPE)
    (λ cross_slope, report "Cross Slope" High (DetCrossSlope cross_slope)
                "Curb ramp cross slope" (rules_reference "cross_slope") detection
                "Adjust cross slope to maximum 2%" 1)
  ++ required (detectable_warning measurements) det_id
    (report "Detectable Warning" High DetMissing "Curb ramp"
       (rules_reference "detectable_warning") detection
       "Install truncated dome detectable warning surface" 1)
  (* a pair is always true, so [landing and ...] tests the sizes only *)
  ++ measured (landing_size measurements) det_id
    (λ landing, Py.lt landing.1 (Py.of_int MIN_LANDING_SIZE)
                || Py.lt landing.2 (Py.of_int MIN_LANDING_SIZE))
    (λ landing, report "Landing Size" Medium (DetLanding landing.1 landing.2)
                "Curb ramp landing" (rules_reference "landing_size") detection
                "Expand landing to minimum 36 x 36" 2).

Definition _check_sidewalk (detection : Detection) (measurements : Measurements)
  : list Violation :=
  let det_id := det_id_of detection in
  measured (width measurements) det_id
    (λ width, Py.truthy width && Py.lt width (Py.of_int MIN_SIDEWALK_WIDTH))
    (λ width, report "Sidewalk Width" Medium (DetWidth width) "Sidewalk"
                (rules_reference "sidewalk_width") detection
                "Widen sidewalk to minimum 36 inches" 2)
  ++ measured (cross_slope measurements) det_id
    (λ cross_slope, Py.truthy cross_slope && Py.gt cross_slope MAX_CROSS_SLOPE)
    (λ cross_slope, report "Cross Slope" High (DetCrossSlope cross_slope)
                "Sidewalk" (rules_reference "cross_slope") detection
                "Regrade sidewalk to reduce cross slope" 1).

Definition _check_crosswalk (detection : Detection) (measurements : Measurements)
  : list Violation :=
  let det_id := det_id_of detection in
  required (has_curb_ramps measurements) det_id
    (report "Missing Curb Ramps" High DetNoRamps "Crosswalk" "ADAAG 406"
       detection "Install compliant curb ramps" 1)
  ++ measured (marking_quality measurements) det_id
    (λ quality, Py.truthy quality && Py.lt quality (Py.literal 6 10))
    (λ quality, report "Crosswalk Markings" Medium (DetQuality quality)
                "Crosswalk" "MUTCD Section 3B.18" detection
                "Repaint crosswalk markings" 2).

Definition _check_surface_quality (detection : Detection)
    (measurements : Measurements) : list Violation :=
  let det_id := det_id_of detection in
  measured (max_gap measurements) det_id
    (λ max_gap, Py.truthy max_gap && Py.gt max_gap MAX_SURFACE_GAP)
    (λ max_gap, report "Surface Quality" Medium (DetGap max_gap) "Surface"
                (rules_reference "surface_gap") detection
                "Repair or replace damaged surface" 3)
  ++ measured (vertical_change measurements) det_id
    (λ vertical, Py.truthy vertical && Py.gt vertical MAX_VERTICAL_CHANGE)
    (λ vertical, report "Trip Hazard" High (DetVertical vertical) "Surface"
                "ADAAG 303.2" detection "Bevel edges or install ramp" 1).

(** The [cost_estimates] dict of [_prioritize_violations]. *)
Definition cost_estimates : gmap string Z :=
  list_to_map
    [ ("Curb Ramp Slope", 2500); ("Cross Slope", 3200); ("Sidewalk Width", 1800);
      ("Detectable Warning", 800); ("Surface Quality", 2200);
      ("Landing Size", 1500); ("Missing Curb Ramps", 3500);
      ("Crosswalk Markings", 400); ("Trip Hazard", 1200) ].

(** The body of the loop of [_prioritize_violations]. *)
Definition prioritize_one (violation : Violation) : Violation :=
  let violation := set_cost (default 1000 (cost_estimates !! type violation)) violation in
  match priority violation with
  | Some _ => violation
  | None =>
      match severity violation with
      | High => set_priority 1 violation
      | Medium => set_priority 2 violation
      | Low => set_priority 3 violation
      end
  end.

(** The sort key [(x['priority'], -x['cost'])].  Both keys have been
    stored by the loop when the sort runs, so the subscripts find them;
    the defaults below are never used on its output. *)
Definition priority_cost_key (x : Violation) : Z * Z :=
  (default 0 (priority x), - default 0 (cost x)).

Definition _prioritize_violations (violations : list Violation) : list Violation :=
  Py.sorted Py.pair_le priority_cost_key (map prioritize_one violations).

Inductive Infrastructure := CurbRamp | Sidewalk | Crosswalk | Surface | Other.

(** The [if]/[elif] chain of [evaluate] on [class_name.lower()]. *)
Definition infrastructure_of (class_name : string) : Infrastructure :=
  let class_name := Py.lower class_name in
  if Py.contains "curb" class_name || Py.contains "ramp" class_name then CurbRamp
  else if Py.contains "sidewalk" class_name || Py.contains "path" class_name then Sidewalk
  else if Py.contains "crosswalk" class_name || Py.contains "crossing" class_name then Crosswalk
  else if Py.contains "surface" class_name then Surface
  else Other.

(** What one iteration of the loop of [evaluate] appends. *)
Definition check_detection (measurements : Measurements) (detection : Detection)
  : list Violation :=
  match infrastructure_of (class_name detection) with
  | CurbRamp => _check_curb_ramp detection measurements
  | Sidewalk => _check_sidewalk detection measurements
  | Crosswalk => _check_crosswalk detection measurements
  | Surface => _check_surface_quality detection measurements
  | Other => []
  end.

Definition evaluate (measurements : Measurements) (detections : list Detection)
  : list Violation :=
  let violations :=
    fold_left (λ violations detection,
                 violations ++ check_detection measurements detection)
              detections [] in
  _prioritize_violations violations.

(** ** cost_estimator.py: CostEstimator *)

Record CostInfo := {
  ci_min : Z;
  ci_max : Z;
  typical : Z;
  unit_ : string;
  ci_labor_hours : Z
}.

Definition BASE_COSTS : gmap string CostInfo :=
  list_to_map
    [ ("Curb Ramp Slope",
        {| ci_min := 2000; ci_max := 3500; typical := 2500;
           unit_ := "per ramp"; ci_labor_hours := 16 |});
      ("Cross Slope",
        {| ci_min := 2500; ci_max := 4000; typical := 3200;
           unit_ := "per section"; ci_labor_hours := 20 |});
      ("Sidewalk Width",
        {| ci_min := 1500; ci_max := 2500; typical := 1800;
           unit_ := "per linear foot"; ci_labor_hours := 12 |});
      ("Detectable Warning",
        {| ci_min := 600; ci_max := 1200; typical := 800;
           unit_ := "per installation"; ci_labor_hours := 4 |});
      ("Surface Quality",
        {| ci_min := 1800; ci_max := 3000; typical := 2200;
           unit_ := "per section"; ci_labor_hours := 14 |});
      ("Landing Size",
        {| ci_min := 1200; ci_max := 2000; typical := 1500;
           unit_ := "per landing"; ci_labor_hours := 10 |});
      ("Missing Curb Ramps",
        {| ci_min := 3000; ci_max := 4500; typical := 3500;
           unit_ := "per ramp"; ci_labor_hours := 24 |});
      ("Crosswalk Markings",
        {| ci_min := 300; ci_max := 600; typical := 400;
           unit_ := "per crossing"; ci_labor_hours := 2 |});
      ("Trip Hazard",
        {| ci_min := 800; ci_max := 1800; typical := 1200;
           unit_ := "per repair"; ci_labor_hours := 8 |}) ].

Definition COMPLEXITY_FACTORS : gmap string Py.float :=
  list_to_map
    [ ("urban_high_traffic", Py.literal 13 10);
      ("historic_district", Py.literal 15 10);
      ("utility_conflicts", Py.literal 14 10);
      ("drainage_issues", Py.literal 12 10);
      ("standard", Py.literal 10 10) ].

(** An entry of the ['breakdown'] list. *)
Record BreakdownEntry := {
  b_type : string;
  b_cost : Z;
  b_unit : string;
  b_labor_hours : Z;
  b_priority : Z
}.

(** The dict returned by [estimate].  The early return for an empty list
    stores four keys only; the other three are optional. *)
Record Estimate := {
  total_cost : Z;
  contingency : option Z;
  total_with_contingency : option Z;
  timeline : string;
  breakdown : list BreakdownEntry;
  e_labor_hours : Z;
  complexity_factor : option Py.float
}.

Definition _estimate_timeline (total_labor_hours : Z) (num_violations : Z)
  : Py.outcome string :=
  let crew_size := Py.literal 25 10 in
  let hours_per_day := 7 in
  hours ← Py.float_of_int total_labor_hours;
  let work_days := Py.fdiv hours (Py.fmul crew_size (Py.of_int hours_per_day)) in
  let work_days := Py.fmul work_days (Py.literal 12 10) in
  let work_weeks := Py.fdiv work_days (Py.of_int 5) in
  if Py.lt work_weeks (Py.of_int 1) then
    days ← Py.int work_days;
    mret (Py.str days +:+ " days")
  else if Py.lt work_weeks (Py.of_int 4) then
    weeks ← Py.int work_weeks;
    mret (Py.str weeks +:+ " weeks")
  else if Py.lt work_weeks (Py.of_int 12) then
    months ← Py.int (Py.fdiv work_weeks (Py.of_int 4));
    mret (Py.str months +:+ "-" +:+ Py.str (months + 1) +:+ " months")
  else
    months ← Py.int (Py.fdiv work_weeks (Py.of_int 4));
    mret (Py.str months +:+ " months").

(** The variables the loop of [estimate] updates, with the violation
    records it has written to so far. *)
Record Totals := {
  t_breakdown : list BreakdownEntry;
  t_total_cost : Z;
  t_total_labor_hours : Z;
  t_violations : list Violation
}.

(** The body of the loop of [estimate]. *)
Definition estimate_one (multiplier : Py.float) (acc : Totals)
    (violation : Violation) : Py.outcome Totals :=
  let viol_type := type violation in
  match BASE_COSTS !! viol_type with
  | Some cost_info =>
      let base_cost := typical cost_info in
      adjusted_cost ← Py.int_mul base_cost multiplier;
      let violation :=
        set_labor_hours (ci_labor_hours cost_info) (set_cost adjusted_cost violation) in
      mret {| t_breakdown :=
                t_breakdown acc ++
                [ {| b_type := viol_type; b_cost := adjusted_cost;
                     b_unit := unit_ cost_info;
                     b_labor_hours := ci_labor_hours cost_info;
                     b_priority := default 2 (priority violation) |} ];
              t_total_cost := t_total_cost acc + adjusted_cost;
              t_total_labor_hours := t_total_labor_hours acc + ci_labor_hours cost_info;
              t_violations := t_violations acc ++ [violation] |}
  | None =>
      let default_cost := 1000 in
      let violation := set_labor_hours 8 (set_cost default_cost violation) in
      mret {| t_breakdown := t_breakdown acc;
              t_total_cost := t_total_cost acc + default_cost;
              t_total_labor_hours := t_total_labor_hours acc + 8;
              t_violations := t_violations acc ++ [violation] |}
  end.

Fixpoint estimate_loop (multiplier : Py.float) (violations : list Violation)
    (acc : Totals) : Py.outcome Totals :=
  match violations with
  | [] => mret acc
  | violation :: rest =>
      acc ← estimate_one multiplier acc violation;
      estimate_loop multiplier rest acc
  end.

(** [estimate] returns the dict and leaves ['cost'] and ['labor_hours']
    written in the caller's violation records; the second component is
    the list of those records after the call. *)
Definition estimate (violations : list Violation) (complexity : string)
  : Py.outcome (Estimate * list Violation) :=
  match violations with
  | [] =>
      mret ({| total_cost := 0; contingency := None;
               total_with_contingency := None; timeline := "N/A";
               breakdown := []; e_labor_hours := 0;
               complexity_factor := None |}, [])
  | _ =>
      let multiplier := default (Py.literal 10 10) (COMPLEXITY_FACTORS !! complexity) in
      acc ← estimate_loop multiplier violations
              {| t_breakdown := []; t_total_cost := 0;
                 t_total_labor_hours := 0; t_violations := [] |};
      let total_cost := t_total_cost acc in
      timeline ← _estimate_timeline (t_total_labor_hours acc)
                   (Z.of_nat (length violations));
      contingency ← Py.int_mul total_cost (Py.literal 12 100);
      let total_with_contingency := total_cost + contingency in
      mret ({| total_cost := total_cost; contingency := Some contingency;
               total_with_contingency := Some total_with_contingency;
               timeline := timeline; breakdown := t_breakdown acc;
               e_labor_hours := t_total_labor_hours acc;
               complexity_factor := Some multiplier |}, t_violations acc)
  end.

(** A phase dict of the phased plan. *)
Record Phase := {
  p_violations : list Violation;
  p_cost : Z;
  phase_number : Z
}.

Record PhasedPlan := {
  phases : list Phase;
  total_phases : Z;
  fully_funded : bool
}.

(** The sort key [(x.get('priority', 3), -x.get('cost', 0))]. *)
Definition phase_key (x : Violation) : Z * Z :=
  (default 3 (priority x), - default 0 (cost x)).

(** The variables the loop of [estimate_phased_approach] updates. *)
Record Packing := {
  closed : list Phase;
  current_phase : Phase;
  remaining_budget : Z
}.

(** The body of the loop of [estimate_phased_approach]. *)
Definition pack_one (budget_constraint : Z) (st : Packing)
    (violation : Violation) : Packing :=
  let cost := default 0 (cost violation) in
  if cost <=? remaining_budget st then
    {| closed := closed st;
       current_phase :=
         {| p_violations := p_violations (current_phase st) ++ [violation];
            p_cost := p_cost (current_phase st) + cost;
            phase_number := phase_number (current_phase st) |};
       remaining_budget := remaining_budget st - cost |}
  else
    match p_violations (current_phase st) with
    | [] => st
    | _ :: _ =>
        let phases := closed st ++ [current_phase st] in
        {| closed := phases;
           current_phase :=
             {| p_violations := [violation]; p_cost := cost;
                phase_number := Z.of_nat (length phases) + 1 |};
           remaining_budget := budget_constraint - cost |}
    end.

(** The state before the loop. *)
Definition pack_start (budget_constraint : Z) : Packing :=
  {| closed := [];
     current_phase := {| p_violations := []; p_cost := 0; phase_number := 1 |};
     remaining_budget := budget_constraint |}.

Definition pack (budget_constraint : Z) (violations : list Violation) : Packing :=
  fold_left (pack_one budget_constraint) violations (pack_start budget_constraint).

(** The phases after the loop: the last phase is added when it holds a
    violation. *)
Definition add_last_phase (st : Packing) : list Phase :=
  match p_violations (current_phase st) with
  | [] => closed st
  | _ :: _ => closed st ++ [current_phase st]
  end.

Definition estimate_phased_approach (violations : list Violation)
    (budget_constraint : Z) : Py.outcome PhasedPlan :=
  let sorted_violations := Py.sorted Py.pair_le phase_key violations in
  let st := pack budget_constraint sorted_violations in
  let phases := add_last_phase st in
  mret {| phases := phases;
          total_phases := Z.of_nat (length phases);
          fully_funded := 0 <=? remaining_budget st |}.

(** The ['by_severity'] dict, with its three keys. *)
Record BySeverity := {
  sev_high : Z;
  sev_medium : Z;
  sev_low : Z
}.

(** [by_severity[severity] += cost] *)
Definition add_by_severity (severity : Severity) (cost : Z) (acc : BySeverity)
  : BySeverity :=
  match severity with
  | High => {| sev_high := sev_high acc + cost; sev_medium := sev_medium acc;
               sev_low := sev_low acc |}
  | Medium => {| sev_high := sev_high acc; sev_medium := sev_medium acc + cost;
                 sev_low := sev_low acc |}
  | Low => {| sev_high := sev_high acc; sev_medium := sev_medium acc;
              sev_low := sev_low acc + cost |}
  end.

(** The dict returned by [generate_cost_summary]. *)
Record CostSummary := {
  total_violations : Z;
  s_total_cost : Z;
  s_total_with_contingency : Z;
  s_timeline : string;
  by_severity : BySeverity;
  by_type : gmap string Z;
  s_labor_hours : Z;
  non_compliance_risk : Z;
  roi_payback_years : Py.float
}.

(** [estimate['total_with_contingency']] and the like. *)
Definition subscript {A} (key : string) (field : option A) : Py.outcome A :=
  match field with
  | Some a => mret a
  | None => Py.Raises (Py.KeyError key)
  end.

Definition generate_cost_summary (violations : list Violation)
  : Py.outcome CostSummary :=
  '(estimate, violations) ← estimate violations "standard";
  let by_severity :=
    fold_left (λ acc violation,
                 let severity := severity violation in
                 let cost := default 0 (cost violation) in
                 add_by_severity severity cost acc)
              violations {| sev_high := 0; sev_medium := 0; sev_low := 0 |} in
  let by_type :=
    fold_left (λ (acc : gmap string Z) violation,
                 let viol_type := type violation in
                 let cost := default 0 (cost violation) in
                 <[viol_type := default 0 (acc !! viol_type) + cost]> acc)
              violations ∅ in
  let non_compliance_cost := Z.of_nat (length violations) * 5000 in
  total_with_contingency ←
    subscript "total_with_contingency" (total_with_contingency estimate);
  roi ← Py.truediv_int (total_cost estimate) (Z.max non_compliance_cost 1);
  mret {| total_violations := Z.of_nat (length violations);
          s_total_cost := total_cost estimate;
          s_total_with_contingency := total_with_contingency;
          s_timeline := timeline estimate;
          by_severity := by_severity;
          by_type := by_type;
          s_labor_hours := e_labor_hours estimate;
          non_compliance_risk := non_compliance_cost;
          roi_payback_years := roi |}.

(** ** analyzer.py: ComplianceAnalyzer._calculate_compliance_score *)

Definition severity_weights (s : Severity) : Z :=
  match s with
  | High => 3
  | Medium => 2
  | Low => 1
  end.

Definition _calculate_compliance_score (violations : list Violation)
    (detections : list Detection) : Py.outcome Z :=
  match detections with
  | [] => mret 100
  | _ =>
      let total_weight :=
        fold_left (λ acc v, acc + severity_weights (severity v)) violations 0 in
      let max_possible_weight := Z.of_nat (length detections) * 3 in
      if max_possible_weight =? 0 then mret 100
      else
        ratio ← Py.truediv_int total_weight max_possible_weight;
        percent ← Py.int (Py.fmul ratio (Py.of_int 100));
        let score := 100 - percent in
        mret (Z.max 0 (Z.min 100 score))
  end.

(** ** analyzer.py: ComplianceAnalyzer._is_related *)

(** The [type_mapping] dict, in the order its keys are written. *)
Definition type_mapping : list (string * list string) :=
  [ ("curb_ramp", ["curb"; "ramp"]);
    ("sidewalk", ["sidewalk"; "path"]);
    ("crosswalk", ["crosswalk"; "crossing"]);
    ("surface", ["sidewalk"; "path"; "ramp"]) ].

(** The loop of [_is_related]: the first key found in the violation type
    decides. *)
Fixpoint is_related_loop (mapping : list (string * list string))
    (violation_type detection_class : string) : bool :=
  match mapping with
  | [] => false
  | (viol_key, detect_keywords) :: rest =>
      if Py.contains viol_key violation_type then
        existsb (λ keyword, Py.contains keyword detection_class) detect_keywords
      else is_related_loop rest violation_type detection_class
  end.

Definition _is_related (detection : Detection) (violation : Violation) : bool :=
  let violation_type := Py.lower (type violation) in
  let detection_class := Py.lower (class_name detection) in
  is_related_loop type_mapping violation_type detection_class.

(** ** measurement_extractor.py: MeasurementExtractor.extract *)

(** What the measuring methods return for the region of one detection:
    [_measure_slope], [_measure_cross_slope], [_detect_warning_surface],
    [_measure_landing], [_measure_width], [_check_curb_ramps],
    [_assess_marking_quality], [_detect_surface_gaps] and
    [_detect_vertical_changes].  They work on the image, which is outside
    the model; [extract] calls only those of the class of the detection
    and reads the others not at all. *)
Record Readings := {
  slope_reading : option Py.float;
  cross_slope_reading : option Py.float;
  warning_reading : bool;
  landing_reading : option (Py.float * Py.float);
  width_reading : option Py.float;
  ramps_reading : bool;
  quality_reading : Py.float;
  gap_reading : option Py.float;
  vertical_reading : option Py.float
}.

(** The nine tables of the [measurements] dict while it is filled. *)
Record Tables := {
  slope_table : gmap Z Py.float;
  cross_slope_table : gmap Z Py.float;
  width_table : gmap Z Py.float;
  detectable_warning_table : gmap Z bool;
  landing_size_table : gmap Z (Py.float * Py.float);
  max_gap_table : gmap Z Py.float;
  vertical_change_table : gmap Z Py.float;
  has_curb_ramps_table : gmap Z bool;
  marking_quality_table : gmap Z Py.float
}.

Definition empty_tables : Tables :=
  {| slope_table := ∅; cross_slope_table := ∅; width_table := ∅;
     detectable_warning_table := ∅; landing_size_table := ∅;
     max_gap_table := ∅; vertical_change_table := ∅;
     has_curb_ramps_table := ∅; marking_quality_table := ∅ |}.

(** [if value is not None: table[det_id] = value] *)
Definition store {V} (det_id : Z) (value : option V) (table : gmap Z V)
  : gmap Z V :=
  match value with
  | Some v => <[det_id := v]> table
  | None => table
  end.

(** The [if]/[elif] chain of [extract] on [class_name.lower()]; a
    crossing is recognised by ['crosswalk'] only. *)
Definition measured_as (class_name : string) : Infrastructure :=
  let class_name := Py.lower class_name in
  if Py.contains "curb" class_name || Py.contains "ramp" class_name then CurbRamp
  else if Py.contains "sidewalk" class_name || Py.contains "path" class_name then Sidewalk
  else if Py.contains "crosswalk" class_name then Crosswalk
  else if Py.contains "surface" class_name then Surface
  else Other.

(** The body of the loop of [extract]; the key is [id(detection)]. *)
Definition extract_one (ms : Tables) (measured : Detection * Readings) : Tables :=
  let '(detection, r) := measured in
  let det_id := object_id detection in
  match measured_as (class_name detection) with
  | CurbRamp =>
      {| slope_table := store det_id (slope_reading r) (slope_table ms);
         cross_slope_table :=
           store det_id (cross_slope_reading r) (cross_slope_table ms);
         width_table := width_table ms;
         detectable_warning_table :=
           <[det_id := warning_reading r]> (detectable_warning_table ms);
         landing_size_table :=
           store det_id (landing_reading r) (landing_size_table ms);
         max_gap_table := max_gap_table ms;
         vertical_change_table := vertical_change_table ms;
         has_curb_ramps_table := has_curb_ramps_table ms;
         marking_quality_table := marking_quality_table ms |}
  | Sidewalk =>
      {| slope_table := slope_table ms;
         cross_slope_table :=
           store det_id (cross_slope_reading r) (cross_slope_table ms);
         width_table := store det_id (width_reading r) (width_table ms);
         detectable_warning_table := detectable_warning_table ms;
         landing_size_table := landing_size_table ms;
         max_gap_table := max_gap_table ms;
         vertical_change_table := vertical_change_table ms;
         has_curb_ramps_table := has_curb_ramps_table ms;
         marking_quality_table := marking_quality_table ms |}
  | Crosswalk =>
      {| slope_table := slope_table ms;
         cross_slope_table := cross_slope_table ms;
         width_table := width_table ms;
         detectable_warning_table := detectable_warning_table ms;
         landing_size_table := landing_size_table ms;
         max_gap_table := max_gap_table ms;
         vertical_change_table := vertical_change_table ms;
         has_curb_ramps_table :=
           <[det_id := ramps_reading r]> (has_curb_ramps_table ms);
         marking_quality_table :=
           <[det_id := quality_reading r]> (marking_quality_table ms) |}
  | Surface =>
      {| slope_table := slope_table ms;
         cross_slope_table := cross_slope_table ms;
         width_table := width_table ms;
         detectable_warning_table := detectable_warning_table ms;
         landing_size_table := landing_size_table ms;
         max_gap_table := store det_id (gap_reading r) (max_gap_table ms);
         vertical_change_table :=
           store det_id (vertical_reading r) (vertical_change_table ms);
         has_curb_ramps_table := has_curb_ramps_table ms;
         marking_quality_table := marking_quality_table ms |}
  | Other => ms
  end.

(** The dict [extract] returns: all nine tables are present. *)
Definition measurements_of (ms : Tables) : Measurements :=
  {| slope := Some (slope_table ms);
     cross_slope := Some (cross_slope_table ms);
     width := Some (width_table ms);
     detectable_warning := Some (detectable_warning_table ms);
     landing_size := Some (landing_size_table ms);
     max_gap := Some (max_gap_table ms);
     vertical_change := Some (vertical_change_table ms);
     has_curb_ramps := Some (has_curb_ramps_table ms);
     marking_quality := Some (marking_quality_table ms) |}.

Definition extract (detections : list (Detection * Readings)) : Measurements :=
  measurements_of (fold_left extract_one detections empty_tables).

(** ** report_generator.py: ReportGenerator *)

Definition _get_status (score : Z) : string :=
  if 90 <=? score then "Excellent"
  else if 75 <=? score then "Good"
  else if 60 <=? score then "Needs Improvement"
  else "Critical".

(** [_generate_findings_text] on [results['compliance_score']] and
    [results['violations']]. *)
Definition _generate_findings_text (score : Z) (violations : list Violation)
  : string :=
  let summary :=
    if 90 <=? score then
      "The assessed infrastructure demonstrates excellent ADA compliance with minimal violations."
    else if 75 <=? score then
      "The infrastructure shows good overall compliance but has areas requiring attention."
    else if 60 <=? score then
      "Multiple compliance issues were identified that require remediation to meet ADA standards."
    else
      "Critical compliance deficiencies were found that pose significant accessibility barriers." in
  let high_priority :=
    fold_left (λ acc v, match severity v with High => acc + 1 | _ => acc end)
              violations 0 in
  if 0 <? high_priority then
    summary +:+ " There are " +:+ Py.str high_priority
      +:+ " high-priority violations requiring immediate attention."
  else summary.

(** ** Vocabulary of the properties *)

(** [x] may stand before [y] in a list sorted by [key]. *)
Definition key_le {A K : Type} (le : K → K → bool) (key : A → K) (x y : A) : Prop :=
  le (key x) (key y) = true.

(** [a] ranks no later than [b]: a smaller priority, or the same priority
    and a cost at least as high. *)
Definition ranked_before (a b : Violation) : Prop :=
  ∃ pa ca pb cb,
    priority a = Some pa ∧ cost a = Some ca ∧
    priority b = Some pb ∧ cost b = Some cb ∧
    (pa < pb ∨ (pa = pb ∧ cb ≤ ca)).

(** The violations that share a priority and a cost, in list order. *)
Definition with_rank (p c : Z) (l : list Violation) : list Violation :=
  filter (λ v, priority v = Some p ∧ cost v = Some c) l.

(** The sum of [f] over a list. *)
Definition sum_with {A} (f : A → Z) (l : list A) : Z :=
  foldr (λ a acc, f a + acc) 0 l.

(** [violation.get('cost', 0)] *)
Definition cost_of (v : Violation) : Z := default 0 (cost v).

(** The violations a plan schedules, phase after phase. *)
Definition scheduled (ps : list Phase) : list Violation :=
  concat (map p_violations ps).

(** A phase whose ['cost'] is the sum of the costs of its violations. *)
Definition well_costed (p : Phase) : Prop :=
  p_cost p = sum_with cost_of (p_violations p).

(** What is left of a list once its leading violations that each cost
    more than the budget are removed. *)
Fixpoint from_first_affordable (budget : Z) (vs : list Violation) : list Violation :=
  match vs with
  | [] => []
  | v :: rest =>
      if cost_of v <=? budget then vs else from_first_affordable budget rest
  end.

(** The detection id has no entry in a measurement table that is present. *)
Definition absent {V} (table : option (gmap Z V)) (det_id : Z) : Prop :=
  ∀ t, table = Some t → t !! det_id = None.

(** The violation types a list reports, in order. *)
Definition types_of (vs : list Violation) : list string := map type vs.

(** A violation record as the pipeline hands it to the estimator. *)
Definition violation_of (ty : string) (sev : Severity) (prio : option Z)
    (c : option Z) : Violation :=
  {| type := ty; severity := sev; detected_value := DetMissing;
     location := EmptyString; reference := EmptyString; bbox := [];
     recommendation := EmptyString; priority := prio; cost := c;
     labor_hours := None |}.

(** A detection with an explicit id. *)
Definition detection_of (name : string) (i : Z) : Detection :=
  {| class_name := name; confidence := Py.literal 9 10; d_bbox := [];
     id_key := Some i; object_id := 0 |}.

(** Width of a detection with the given id, in a table of its own. *)
Definition width_only (i : Z) (w : Py.float) : Measurements :=
  {| slope := None; cross_slope := None; width := Some {[ i := w ]};
     detectable_warning := None; landing_size := None; max_gap := None;
     vertical_change := None; has_curb_ramps := None; marking_quality := None |}.

(** Measurements with no table at all. *)
Definition no_measurements : Measurements :=
  {| slope := None; cross_slope := None; width := None;
     detectable_warning := None; landing_size := None; max_gap := None;
     vertical_change := None; has_curb_ramps := None; marking_quality := None |}.

(** [round(n * x)] for an int [n] and a float [x]: the rounding the
    specification writes where the code calls [int]. *)
Definition round_mul (n : Z) (x : Py.float) : Py.outcome Z :=
  n ← Py.float_of_int n; Py.round (Py.fmul n x).

(** The multiplier [estimate] selects for a complexity key. *)
Definition multiplier_of (complexity : string) : Py.float :=
  default (Py.literal 10 10) (COMPLEXITY_FACTORS !! complexity).

(** The violation type has an entry in [BASE_COSTS]. *)
Definition known (v : Violation) : Prop := is_Some (BASE_COSTS !! type v).

(** What [estimate] writes into a violation record: the adjusted cost
    and labor hours of its type, or the defaults. *)
Definition costed_by (multiplier : Py.float) (v v' : Violation) : Prop :=
  type v' = type v ∧ severity v' = severity v ∧ priority v' = priority v ∧
  match BASE_COSTS !! type v with
  | Some info =>
      ∃ adjusted, Py.int_mul (typical info) multiplier = Py.Returns adjusted ∧
        cost v' = Some adjusted ∧ labor_hours v' = Some (ci_labor_hours info)
  | None => cost v' = Some 1000 ∧ labor_hours v' = Some 8
  end.

(** The breakdown entry of a violation of a known type. *)
Definition entry_of (v' : Violation) (b : BreakdownEntry) : Prop :=
  b_type b = type v' ∧ cost v' = Some (b_cost b) ∧
  labor_hours v' = Some (b_labor_hours b) ∧
  b_priority b = default 2 (priority v').

(** The score with the percentage rounded to the nearest integer, as the
    specification writes it. *)
Definition rounded_score (total_weight max_possible_weight : Z) : Py.outcome Z :=
  ratio ← Py.truediv_int (100 * total_weight) max_possible_weight;
  percent ← Py.round ratio;
  mret (Z.max 0 (Z.min 100 (100 - percent))).

(** The score with the percentage truncated, as the code computes it. *)
Definition truncated_score (total_weight max_possible_weight : Z) : Py.outcome Z :=
  ratio ← Py.truediv_int total_weight max_possible_weight;
  percent ← Py.int (Py.fmul ratio (Py.of_int 100));
  mret (Z.max 0 (Z.min 100 (100 - percent))).

(** A float that is finite and smaller than [2 ^ k] in absolute value. *)
Definition mag_le (k : Z) (x : Py.float) : Prop :=
  match x with
  | S754_zero _ => True
  | S754_finite _ m e => Z.pos m < 2 ^ (k - e)
  | _ => False
  end.

(** A float that is not a negative number. *)
Definition not_negative (x : Py.float) : Prop :=
  match x with
  | S754_finite s _ _ => s = false
  | _ => True
  end.

(** The exponent of a finite float that is not zero. *)
Definition exponent_of (x : Py.float) : option Z :=
  match x with
  | S754_finite _ _ e => Some e
  | _ => None
  end.

(** * Properties *)

(** ** The stable sort *)

Section sort_facts.
Context {A K : Type} (le : K → K → bool) (key : A → K).
Hypothesis le_refl : ∀ k, le k k = true.
Hypothesis le_total : ∀ a b, le a b = true ∨ le b a = true.
Hypothesis le_trans : ∀ a b c, le a b = true → le b c = true → le a c = true.

Lemma insert_sorted_perm x l : Py.insert_sorted le key x l ≡ₚ x :: l.
Proof.
  induction l as [|y l IH]; simpl; [done|].
  destruct (le (key x) (key y)); [done|].
  rewrite IH. apply Permutation_swap.
Qed.

Lemma sorted_perm l : Py.sorted le key l ≡ₚ l.
Proof.
  induction l as [|x l IH]; simpl; [done|].
  by rewrite insert_sorted_perm, IH.
Qed.

Lemma insert_sorted_ordered x l :
  StronglySorted (key_le le key) l →
  StronglySorted (key_le le key) (Py.insert_sorted le key x l).
Proof.
  induction 1 as [|y l Hl IH Hy]; simpl.
  - repeat constructor.
  - destruct (le (key x) (key y)) eqn:Hxy.
    + constructor; [by constructor|].
      constructor; [done|].
      eapply Forall_impl; [exact Hy|].
      intros z Hz. unfold key_le in *. eauto.
    + constructor; [done|].
      rewrite insert_sorted_perm. constructor; [|done].
      unfold key_le. destruct (le_total (key x) (key y)); congruence.
Qed.

Lemma sorted_ordered l : StronglySorted (key_le le key) (Py.sorted le key l).
Proof.
  induction l as [|x l IH]; simpl; [constructor|].
  by apply insert_sorted_ordered.
Qed.

(** Elements that share a key are never reordered. *)
Lemma insert_sorted_filter (P : A → Prop) `{∀ x, Decision (P x)} x l :
  (∀ a b, P a → P b → key a = key b) →
  filter P (Py.insert_sorted le key x l) = filter P (x :: l).
Proof.
  intros HP. induction l as [|y l IH]; simpl; [done|].
  destruct (le (key x) (key y)) eqn:Hxy; [done|].
  rewrite filter_cons, IH, !filter_cons.
  destruct (decide (P x)) as [Hx|Hx], (decide (P y)) as [Hy|Hy]; try done.
  rewrite (HP x y Hx Hy), le_refl in Hxy. done.
Qed.

Lemma sorted_filter (P : A → Prop) `{∀ x, Decision (P x)} l :
  (∀ a b, P a → P b → key a = key b) →
  filter P (Py.sorted le key l) = filter P l.
Proof.
  intros HP. induction l as [|x l IH]; simpl; [done|].
  rewrite insert_sorted_filter by done.
  by rewrite !filter_cons, IH.
Qed.

End sort_facts.

Lemma pair_le_refl k : Py.pair_le k k = true.
Proof. unfold Py.pair_le. destruct k as [a b]; simpl. lia. Qed.

Lemma pair_le_total a b : Py.pair_le a b = true ∨ Py.pair_le b a = true.
Proof. unfold Py.pair_le. destruct a, b; simpl. lia. Qed.

Lemma pair_le_trans a b c :
  Py.pair_le a b = true → Py.pair_le b c = true → Py.pair_le a c = true.
Proof. unfold Py.pair_le. destruct a, b, c; simpl. lia. Qed.

Lemma pair_le_spec a b :
  Py.pair_le a b = true ↔ a.1 < b.1 ∨ (a.1 = b.1 ∧ a.2 ≤ b.2).
Proof. unfold Py.pair_le. lia. Qed.

(** ** The prioritizer *)

Lemma StronglySorted_on {A} (P : A → Prop) (R R' : A → A → Prop) l :
  (∀ a b, P a → P b → R a b → R' a b) →
  Forall P l → StronglySorted R l → StronglySorted R' l.
Proof.
  intros HR HP Hs. induction Hs as [|x l Hs IH Hx]; [constructor|].
  apply Forall_cons in HP as [Px HP].
  constructor; [by apply IH|].
  rewrite Forall_forall in *. eauto.
Qed.

Lemma StronglySorted_lookup {A} (R : A → A → Prop) l i j x y :
  StronglySorted R l → l !! i = Some x → l !! j = Some y → (i < j)%nat → R x y.
Proof.
  intros Hs. revert i j. induction Hs as [|a l Hs IH Ha]; intros i j Hi Hj Hij.
  - by rewrite lookup_nil in Hi.
  - destruct j as [|j]; [lia|]. destruct i as [|i]; simpl in *.
    + injection Hi as ->. rewrite Forall_forall in Ha.
      apply Ha. by eapply list_elem_of_lookup_2.
    + apply (IH i j); [done..|lia].
Qed.

Lemma prioritize_one_keys v :
  ∃ p c, priority (prioritize_one v) = Some p ∧ cost (prioritize_one v) = Some c.
Proof.
  unfold prioritize_one.
  destruct v as [ty sev dv loc rf bb rc [p|] c lh]; simpl; [eauto|].
  destruct sev; simpl; eauto.
Qed.

Lemma prioritize_one_priority v :
  (∀ p, priority v = Some p → 1 ≤ p ≤ 3) →
  ∃ p, priority (prioritize_one v) = Some p ∧ 1 ≤ p ≤ 3.
Proof.
  unfold prioritize_one.
  destruct v as [ty sev dv loc rf bb rc [p|] c lh]; simpl; intros Hv; [eauto|].
  destruct sev; simpl; eexists; (split; [done|lia]).
Qed.

Lemma priority_cost_key_ranked a b :
  (∃ p c, priority a = Some p ∧ cost a = Some c) →
  (∃ p c, priority b = Some p ∧ cost b = Some c) →
  key_le Py.pair_le priority_cost_key a b → ranked_before a b.
Proof.
  intros (pa & ca & Hpa & Hca) (pb & cb & Hpb & Hcb) Hle.
  exists pa, ca, pb, cb. repeat (split; [done|]).
  unfold key_le, priority_cost_key in Hle.
  rewrite Hpa, Hca, Hpb, Hcb in Hle. apply pair_le_spec in Hle. simpl in Hle. lia.
Qed.

(** ** Phased allocation *)

Lemma sum_with_app {A} (f : A → Z) l1 l2 :
  sum_with f (l1 ++ l2) = sum_with f l1 + sum_with f l2.
Proof. induction l1 as [|a l1 IH]; simpl; [done|]. unfold sum_with in *. simpl. lia. Qed.

Lemma sum_with_perm {A} (f : A → Z) l1 l2 :
  l1 ≡ₚ l2 → sum_with f l1 = sum_with f l2.
Proof.
  unfold sum_with. induction 1; simpl; lia.
Qed.

Lemma scheduled_app ps qs : scheduled (ps ++ qs) = scheduled ps ++ scheduled qs.
Proof. unfold scheduled. by rewrite map_app, concat_app. Qed.

Lemma sum_phase_costs ps :
  Forall well_costed ps → sum_with p_cost ps = sum_with cost_of (scheduled ps).
Proof.
  induction 1 as [|p ps Hp _ IH]; [done|].
  change (scheduled (p :: ps)) with (p_violations p ++ scheduled ps).
  rewrite sum_with_app, <- IH, <- Hp. done.
Qed.

(** One step of the packing loop once its current phase holds a
    violation: the next violation is scheduled, in the current phase or
    in a new one. *)
Lemma pack_one_open budget st v :
  p_violations (current_phase st) ≠ [] →
  Forall well_costed (closed st) → well_costed (current_phase st) →
  let st' := pack_one budget st v in
  p_violations (current_phase st') ≠ [] ∧
  Forall well_costed (closed st') ∧ well_costed (current_phase st') ∧
  scheduled (closed st' ++ [current_phase st']) =
    scheduled (closed st ++ [current_phase st]) ++ [v].
Proof.
  destruct st as [cl [pv pc pn] rem]. unfold pack_one, well_costed. simpl.
  intros Hne Hcl Hcur.
  destruct (default 0 (cost v) <=? rem); simpl.
  - split; [by destruct pv|]. split; [done|]. split.
    + rewrite sum_with_app, Hcur. unfold sum_with, cost_of. simpl. lia.
    + rewrite !scheduled_app. unfold scheduled. simpl.
      by rewrite !app_nil_r, app_assoc.
  - destruct pv as [|v0 pv]; [done|]. simpl.
    split; [done|]. split; [|split].
    + apply Forall_app. split; [done|]. by constructor.
    + unfold sum_with, cost_of. simpl. lia.
    + by rewrite (scheduled_app (cl ++ _)).
Qed.

Lemma pack_open budget vs st :
  p_violations (current_phase st) ≠ [] →
  Forall well_costed (closed st) → well_costed (current_phase st) →
  let st' := fold_left (pack_one budget) vs st in
  p_violations (current_phase st') ≠ [] ∧
  Forall well_costed (closed st') ∧ well_costed (current_phase st') ∧
  scheduled (closed st' ++ [current_phase st']) =
    scheduled (closed st ++ [current_phase st]) ++ vs.
Proof.
  revert st. induction vs as [|v vs IH]; intros st Hne Hcl Hcur; simpl.
  - by rewrite app_nil_r.
  - destruct (pack_one_open budget st v Hne Hcl Hcur) as (H1 & H2 & H3 & H4).
    destruct (IH _ H1 H2 H3) as (K1 & K2 & K3 & K4).
    repeat (split; [done|]). by rewrite K4, H4, <- app_assoc.
Qed.

(** The whole loop: the leading violations that cost more than the
    budget find the first phase empty and are skipped; everything from
    the first affordable violation on is scheduled. *)
Lemma pack_one_start budget v :
  pack_one budget (pack_start budget) v =
  if cost_of v <=? budget
  then {| closed := [];
          current_phase := {| p_violations := [v]; p_cost := 0 + cost_of v;
                              phase_number := 1 |};
          remaining_budget := budget - cost_of v |}
  else pack_start budget.
Proof. unfold pack_one, cost_of. simpl. by destruct (_ <=? _). Qed.

Lemma pack_scheduled budget vs :
  scheduled (add_last_phase (pack budget vs)) = from_first_affordable budget vs ∧
  Forall well_costed (add_last_phase (pack budget vs)).
Proof.
  unfold pack. induction vs as [|v vs IH]; [done|].
  cbn [fold_left from_first_affordable]. rewrite pack_one_start.
  destruct (cost_of v <=? budget) eqn:Hv; [|exact IH].
  match goal with |- context [fold_left _ vs ?st0] =>
    destruct (pack_open budget vs st0) as (H1 & H2 & H3 & H4) end; simpl.
  - done.
  - done.
  - unfold well_costed, sum_with. simpl. lia.
  - unfold add_last_phase.
    destruct (p_violations (current_phase _)) eqn:E; [done|].
    split; [exact H4|]. apply Forall_app. split; [done|]. by constructor.
Qed.

Lemma estimate_phased_approach_returns vs budget :
  ∃ plan, estimate_phased_approach vs budget = Py.Returns plan ∧
    scheduled (phases plan) =
      from_first_affordable budget (Py.sorted Py.pair_le phase_key vs) ∧
    Forall well_costed (phases plan) ∧
    total_phases plan = Z.of_nat (length (phases plan)).
Proof.
  eexists. split; [reflexivity|]. simpl.
  by destruct (pack_scheduled budget (Py.sorted Py.pair_le phase_key vs)).
Qed.

Lemma from_first_affordable_all budget vs :
  Forall (λ v, cost_of v ≤ budget) vs → from_first_affordable budget vs = vs.
Proof.
  destruct 1 as [|v vs Hv _]; simpl; [done|].
  by rewrite (proj2 (Z.leb_le _ _) Hv).
Qed.

(** When no violation costs more than the budget, the phases partition
    the input: every violation is scheduled once and the phase costs add
    up to the total cost. *)
Lemma phased_partition vs budget plan :
  Forall (λ v, cost_of v ≤ budget) vs →
  estimate_phased_approach vs budget = Py.Returns plan →
  scheduled (phases plan) ≡ₚ vs ∧
  sum_with p_cost (phases plan) = sum_with cost_of vs.
Proof.
  intros Hvs Hplan.
  destruct (estimate_phased_approach_returns vs budget) as (plan' & Hp & H1 & H2 & _).
  rewrite Hp in Hplan. injection Hplan as <-.
  assert (Hs : Py.sorted Py.pair_le phase_key vs ≡ₚ vs) by apply sorted_perm.
  rewrite from_first_affordable_all in H1 by (by rewrite Hs).
  split; [by rewrite H1|].
  rewrite sum_phase_costs, H1 by done. by apply sum_with_perm.
Qed.

(** C1. The phases do not always partition the input.  A crosswalk
    without curb ramps, costed 3500, planned under a budget of 3000: the
    violation is the first one the loop sees, it costs more than the
    remaining budget while the current phase is still empty, and it is
    put in no phase at all; the plan has no phase, reports itself fully
    funded, and its phase costs add up to 0, not to 3500. *)
Theorem phased_loses_unaffordable_first :
  let v := violation_of "Missing Curb Ramps" High (Some 1) (Some 3500) in
  ∃ plan, estimate_phased_approach [v] 3000 = Py.Returns plan ∧
    plan = {| phases := []; total_phases := 0; fully_funded := true |} ∧
    scheduled (phases plan) = [] ∧
    sum_with p_cost (phases plan) = 0 ∧
    sum_with cost_of [v] = 3500.
Proof. eexists. by vm_compute. Qed.

(** The same violation is scheduled, in a phase of its own, when a
    cheaper one precedes it. *)
Lemma phased_keeps_unaffordable_later :
  let v1 := violation_of "Detectable Warning" High (Some 1) (Some 800) in
  let v2 := violation_of "Missing Curb Ramps" High (Some 2) (Some 3500) in
  ∃ plan, estimate_phased_approach [v1; v2] 3000 = Py.Returns plan ∧
    scheduled (phases plan) = [v1; v2] ∧
    map p_cost (phases plan) = [800; 3500] ∧
    fully_funded plan = false.
Proof. eexists. by vm_compute. Qed.

Lemma pack_one_remaining_negative budget st v :
  budget < 0 → 0 ≤ cost_of v → remaining_budget st < 0 →
  remaining_budget (pack_one budget st v) < 0.
Proof.
  intros Hb Hv Hst. unfold pack_one. fold (cost_of v).
  destruct (cost_of v <=? remaining_budget st) eqn:E; [lia|].
  destruct (p_violations (current_phase st)); simpl; lia.
Qed.

Lemma pack_remaining_negative budget vs :
  budget < 0 → Forall (λ v, 0 ≤ cost_of v) vs →
  remaining_budget (pack budget vs) < 0.
Proof.
  intros Hb Hvs. unfold pack.
  assert (Hst : remaining_budget (pack_start budget) < 0) by done.
  revert Hst. generalize (pack_start budget).
  induction Hvs as [|v vs Hv _ IH]; intros st Hst; simpl; [done|].
  apply IH. by apply pack_one_remaining_negative.
Qed.

(** C6, as the code has it.  No budget is rejected: for every list of
    violations and every budget, zero and negative ones included,
    [estimate_phased_approach] returns a plan, whose phase count is the
    number of its phases; a negative budget with costs that are not
    negative is reported as not fully funded. *)
Theorem phased_accepts_any_budget (violations : list Violation) (budget : Z) :
  ∃ plan, estimate_phased_approach violations budget = Py.Returns plan ∧
    total_phases plan = Z.of_nat (length (phases plan)) ∧
    (budget < 0 → Forall (λ v, 0 ≤ cost_of v) violations →
     fully_funded plan = false).
Proof.
  eexists. split; [reflexivity|]. split; [done|]. simpl.
  intros Hb Hvs. apply Z.leb_gt. apply pack_remaining_negative; [done|].
  by rewrite sorted_perm.
Qed.

(** C6, as stated, fails: a budget of 0 is not rejected. *)
Lemma zero_budget_not_rejected :
  ¬ (∀ violations budget, budget ≤ 0 →
       ∃ e, estimate_phased_approach violations budget = Py.Raises e).
Proof.
  intros H. destruct (H [] 0) as [e He]; [lia|]. discriminate He.
Qed.

(** ** The rule engine *)

Lemma measured_absent {V} (table : option (gmap Z V)) i failing mk :
  absent table i → measured table i failing mk = [].
Proof.
  unfold absent, measured. intros H.
  destruct table as [t|]; [|done]. by rewrite (H t).
Qed.

Lemma prioritize_one_type v : type (prioritize_one v) = type v.
Proof.
  unfold prioritize_one.
  destruct v as [ty sev dv loc rf bb rc [p|] c lh]; simpl; [done|].
  by destruct sev.
Qed.

(** Prioritization reorders the violations and keeps their types. *)
Lemma prioritize_types vs : types_of (_prioritize_violations vs) ≡ₚ types_of vs.
Proof.
  unfold types_of, _prioritize_violations.
  rewrite (sorted_perm Py.pair_le priority_cost_key), map_map.
  erewrite map_ext; [done|]. apply prioritize_one_type.
Qed.

Lemma evaluate_perm ms ds :
  evaluate ms ds ≡ₚ map prioritize_one (flat_map (check_detection ms) ds).
Proof.
  unfold evaluate, _prioritize_violations.
  rewrite (sorted_perm Py.pair_le priority_cost_key).
  assert (H : ∀ acc, fold_left (λ vs d, vs ++ check_detection ms d) ds acc =
                     acc ++ flat_map (check_detection ms) ds).
  { induction ds as [|d ds IH]; intros acc; simpl; [by rewrite app_nil_r|].
    by rewrite IH, app_assoc. }
  by rewrite H.
Qed.

Lemma evaluate_types ms ds :
  types_of (evaluate ms ds) ≡ₚ types_of (flat_map (check_detection ms) ds).
Proof.
  unfold types_of. rewrite evaluate_perm, map_map.
  erewrite map_ext; [done|]. apply prioritize_one_type.
Qed.

Lemma evaluate_one_types ms d :
  types_of (evaluate ms [d]) ≡ₚ types_of (check_detection ms d).
Proof. rewrite evaluate_types. simpl. by rewrite app_nil_r. Qed.

Lemma measured_elem {V} (table : option (gmap Z V)) i failing mk v :
  v ∈ measured table i failing mk → ∃ value, v = mk value.
Proof.
  unfold measured. destruct table as [t|]; [|by intros ?%elem_of_nil].
  destruct (t !! i) as [value|]; [|by intros ?%elem_of_nil].
  destruct (failing value); [|by intros ?%elem_of_nil].
  intros ->%list_elem_of_singleton. eauto.
Qed.

Lemma required_elem (table : option (gmap Z bool)) i v0 v :
  v ∈ required table i v0 → v = v0.
Proof.
  unfold required. destruct table as [t|]; [|by intros ?%elem_of_nil].
  destruct (negb _); [|by intros ?%elem_of_nil].
  by intros ->%list_elem_of_singleton.
Qed.

Lemma measured_types {V} (table : option (gmap Z V)) i failing mk ty :
  ty ∈ types_of (measured table i failing mk) → ∃ value, ty = type (mk value).
Proof.
  intros (v & -> & [value ->]%measured_elem)%list_elem_of_fmap. eauto.
Qed.

Lemma required_types (table : option (gmap Z bool)) i v ty :
  ty ∈ types_of (required table i v) → ty = type v.
Proof. by intros (v' & -> & ->%required_elem)%list_elem_of_fmap. Qed.

(** Every violation the rule engine creates has a priority from 1 to 3. *)
Lemma check_detection_priority ms d v :
  v ∈ check_detection ms d → ∃ p, priority v = Some p ∧ 1 ≤ p ≤ 3.
Proof.
  unfold check_detection.
  destruct (infrastructure_of _);
    unfold _check_curb_ramp, _check_sidewalk, _check_crosswalk,
      _check_surface_quality;
    rewrite ?elem_of_app; intros H;
    try (by apply elem_of_nil in H);
    repeat match type of H with _ ∨ _ => destruct H as [H|H] end;
    first [ apply measured_elem in H as [? ->]
          | apply required_elem in H as -> ];
    simpl; eexists; (split; [reflexivity|lia]).
Qed.

Lemma required_missing (table : option (gmap Z bool)) t i v :
  table = Some t → t !! i = None → required table i v = [v].
Proof. intros -> Hi. unfold required. by rewrite Hi. Qed.

(** A violation type reported for one detection comes from one of the
    checks of its class. *)
Ltac verdict_cases H :=
  rewrite evaluate_one_types in H; unfold check_detection in H;
  destruct (infrastructure_of _);
  unfold _check_curb_ramp, _check_sidewalk, _check_crosswalk,
    _check_surface_quality, types_of in H;
  rewrite ?map_app, ?elem_of_app in H;
  try (by apply elem_of_nil in H);
  repeat match type of H with _ ∨ _ => destruct H as [H|H] end;
  first [ apply measured_types in H as [? H]; discriminate H
        | apply required_types in H; discriminate H
        | idtac ].

Section absent_measurement.
Variables (ms : Measurements) (d : Detection).

Lemma slope_absent :
  absent (slope ms) (det_id_of d) →
  "Curb Ramp Slope" ∉ types_of (evaluate ms [d]).
Proof.
  intros Ha H. verdict_cases H.
  rewrite (measured_absent _ _ _ _ Ha) in H. by apply elem_of_nil in H.
Qed.

Lemma cross_slope_absent :
  absent (cross_slope ms) (det_id_of d) →
  "Cross Slope" ∉ types_of (evaluate ms [d]).
Proof.
  intros Ha H. verdict_cases H;
    rewrite (measured_absent _ _ _ _ Ha) in H; by apply elem_of_nil in H.
Qed.

Lemma width_absent :
  absent (width ms) (det_id_of d) →
  "Sidewalk Width" ∉ types_of (evaluate ms [d]).
Proof.
  intros Ha H. verdict_cases H.
  rewrite (measured_absent _ _ _ _ Ha) in H. by apply elem_of_nil in H.
Qed.

Lemma landing_size_absent :
  absent (landing_size ms) (det_id_of d) →
  "Landing Size" ∉ types_of (evaluate ms [d]).
Proof.
  intros Ha H. verdict_cases H.
  rewrite (measured_absent _ _ _ _ Ha) in H. by apply elem_of_nil in H.
Qed.

Lemma max_gap_absent :
  absent (max_gap ms) (det_id_of d) →
  "Surface Quality" ∉ types_of (evaluate ms [d]).
Proof.
  intros Ha H. verdict_cases H.
  rewrite (measured_absent _ _ _ _ Ha) in H. by apply elem_of_nil in H.
Qed.

Lemma vertical_change_absent :
  absent (vertical_change ms) (det_id_of d) →
  "Trip Hazard" ∉ types_of (evaluate ms [d]).
Proof.
  intros Ha H. verdict_cases H.
  rewrite (measured_absent _ _ _ _ Ha) in H. by apply elem_of_nil in H.
Qed.

Lemma marking_quality_absent :
  absent (marking_quality ms) (det_id_of d) →
  "Crosswalk Markings" ∉ types_of (evaluate ms [d]).
Proof.
  intros Ha H. verdict_cases H.
  rewrite (measured_absent _ _ _ _ Ha) in H. by apply elem_of_nil in H.
Qed.

Lemma detectable_warning_absent t :
  infrastructure_of (class_name d) = CurbRamp →
  detectable_warning ms = Some t → t !! det_id_of d = None →
  "Detectable Warning" ∈ types_of (evaluate ms [d]).
Proof.
  intros Hclass Ht Hi. rewrite evaluate_one_types.
  unfold check_detection. rewrite Hclass.
  unfold _check_curb_ramp, types_of.
  rewrite (required_missing _ t _ _ Ht Hi), !map_app, !elem_of_app.
  right. right. left. apply list_elem_of_here.
Qed.

Lemma has_curb_ramps_absent t :
  infrastructure_of (class_name d) = Crosswalk →
  has_curb_ramps ms = Some t → t !! det_id_of d = None →
  "Missing Curb Ramps" ∈ types_of (evaluate ms [d]).
Proof.
  intros Hclass Ht Hi. rewrite evaluate_one_types.
  unfold check_detection. rewrite Hclass.
  unfold _check_crosswalk, types_of.
  rewrite (required_missing _ t _ _ Ht Hi), !map_app, !elem_of_app.
  left. apply list_elem_of_here.
Qed.

End absent_measurement.

(** C2, as the code has it.  For a detection whose id has no entry in a
    measurement table that is present, the numeric rule of that table
    (slope, cross slope, width, landing size, gap, vertical change,
    marking quality) gives no verdict, whatever the other tables hold;
    but the two required-feature rules read the missing entry as
    [False]: a curb ramp missing from the detectable-warning table is
    reported with a Detectable Warning violation, and a crosswalk
    missing from the curb-ramps table with a Missing Curb Ramps
    violation. *)
Theorem absent_measurement_verdicts (ms : Measurements) (d : Detection) :
  let i := det_id_of d in
  let reported := types_of (evaluate ms [d]) in
  (absent (slope ms) i → "Curb Ramp Slope" ∉ reported) ∧
  (absent (cross_slope ms) i → "Cross Slope" ∉ reported) ∧
  (absent (width ms) i → "Sidewalk Width" ∉ reported) ∧
  (absent (landing_size ms) i → "Landing Size" ∉ reported) ∧
  (absent (max_gap ms) i → "Surface Quality" ∉ reported) ∧
  (absent (vertical_change ms) i → "Trip Hazard" ∉ reported) ∧
  (absent (marking_quality ms) i → "Crosswalk Markings" ∉ reported) ∧
  (∀ t, infrastructure_of (class_name d) = CurbRamp →
        detectable_warning ms = Some t → t !! i = None →
        "Detectable Warning" ∈ reported) ∧
  (∀ t, infrastructure_of (class_name d) = Crosswalk →
        has_curb_ramps ms = Some t → t !! i = None →
        "Missing Curb Ramps" ∈ reported).
Proof.
  intros i reported. unfold i, reported. repeat split.
  - apply slope_absent.
  - apply cross_slope_absent.
  - apply width_absent.
  - apply landing_size_absent.
  - apply max_gap_absent.
  - apply vertical_change_absent.
  - apply marking_quality_absent.
  - apply detectable_warning_absent.
  - apply has_curb_ramps_absent.
Qed.

(** C2, as stated, fails: a curb ramp whose id is missing from the
    detectable-warning table is reported. *)
Lemma absent_warning_is_reported :
  ¬ (∀ ms d t,
       infrastructure_of (class_name d) = CurbRamp →
       detectable_warning ms = Some t → t !! det_id_of d = None →
       "Detectable Warning" ∉ types_of (evaluate ms [d])).
Proof.
  intros H.
  apply (H {| slope := None; cross_slope := None; width := None;
              detectable_warning := Some ∅; landing_size := None;
              max_gap := None; vertical_change := None;
              has_curb_ramps := None; marking_quality := None |}
           (detection_of "curb ramp" 1) ∅); [done..|].
  vm_compute. apply list_elem_of_here.
Qed.

(** C3, as the code has it.  For a sidewalk whose width is present and
    is not zero, a Sidewalk Width violation is reported exactly when the
    width is below 36, so that a width of 36 is compliant; the width is
    not checked against a physical range, and every negative width is
    reported. *)
Theorem sidewalk_width_verdict (ms : Measurements) (d : Detection)
    (t : gmap Z Py.float) (v : Py.float) :
  infrastructure_of (class_name d) = Sidewalk →
  width ms = Some t → t !! det_id_of d = Some v →
  Py.truthy v = true →
  ("Sidewalk Width" ∈ types_of (evaluate ms [d]) ↔
   Py.lt v (Py.of_int MIN_SIDEWALK_WIDTH) = true) ∧
  (∀ m e, v = S754_finite true m e →
          "Sidewalk Width" ∈ types_of (evaluate ms [d])).
Proof.
  intros Hclass Hw Ht Hv.
  assert (Hiff : "Sidewalk Width" ∈ types_of (evaluate ms [d]) ↔
                 Py.lt v (Py.of_int MIN_SIDEWALK_WIDTH) = true).
  { rewrite evaluate_one_types. unfold check_detection. rewrite Hclass.
    unfold _check_sidewalk, types_of. rewrite map_app, elem_of_app.
    unfold measured at 1. rewrite Hw, Ht, Hv.
    destruct (Py.lt v (Py.of_int MIN_SIDEWALK_WIDTH)); cbn [andb map].
    - split; [done|]. intros _. left. apply list_elem_of_here.
    - split; [|done]. intros [H|H]; [by apply elem_of_nil in H|].
      apply measured_types in H as [value H]. discriminate H. }
  split; [done|]. intros m e ->. by apply Hiff.
Qed.

(** C3, as stated, fails: a negative width is reported. *)
Lemma negative_width_is_reported :
  ¬ (∀ ms d t v,
       infrastructure_of (class_name d) = Sidewalk →
       width ms = Some t → t !! det_id_of d = Some v →
       Py.lt v (Py.of_int 0) = true →
       "Sidewalk Width" ∉ types_of (evaluate ms [d])).
Proof.
  intros H.
  apply (H (width_only 1 (Py.of_int (-5))) (detection_of "sidewalk" 1)
           {[ 1 := Py.of_int (-5) ]} (Py.of_int (-5))); [done..|].
  vm_compute. apply list_elem_of_here.
Qed.

(** A width of exactly 36 is compliant, and a width of zero is read as
    no measurement. *)
Lemma width_at_threshold_and_zero :
  evaluate (width_only 1 (Py.of_int 36)) [detection_of "sidewalk" 1] = [] ∧
  evaluate (width_only 1 (Py.of_int 0)) [detection_of "sidewalk" 1] = [].
Proof. by vm_compute. Qed.

(** ** Prioritization in the pipeline *)

(** C7. [_prioritize_violations] is a stable sort of the costed
    violations: its output is a permutation of them, ordered by ascending
    priority and, within one priority, by descending cost; violations of
    equal priority and cost keep their relative order; priorities never
    decrease along the output; and when the priorities set by the rule
    engine lie in 1..3, so does every priority of the output, as is the
    case for every list that [evaluate] returns. *)
Theorem prioritize_stable_sort (violations : list Violation) :
  let costed := map prioritize_one violations in
  let out := _prioritize_violations violations in
  out ≡ₚ costed ∧
  StronglySorted ranked_before out ∧
  (∀ p c, with_rank p c out = with_rank p c costed) ∧
  (∀ i j vi vj, (i ≤ j)%nat → out !! i = Some vi → out !! j = Some vj →
     ∃ pi pj, priority vi = Some pi ∧ priority vj = Some pj ∧ pi ≤ pj) ∧
  ((∀ v p, v ∈ violations → priority v = Some p → 1 ≤ p ≤ 3) →
   ∀ v, v ∈ out → ∃ p, priority v = Some p ∧ 1 ≤ p ≤ 3) ∧
  (∀ ms ds v, v ∈ evaluate ms ds → ∃ p, priority v = Some p ∧ 1 ≤ p ≤ 3).
Proof.
  intros costed out.
  assert (Hperm : out ≡ₚ costed) by apply sorted_perm.
  assert (Hkeys : Forall (λ v, ∃ p c, priority v = Some p ∧ cost v = Some c) out).
  { rewrite Hperm. apply Forall_forall. intros v Hv.
    apply list_elem_of_fmap in Hv as (v0 & -> & _). apply prioritize_one_keys. }
  assert (Hsorted : StronglySorted ranked_before out).
  { eapply StronglySorted_on; [apply priority_cost_key_ranked|exact Hkeys|].
    apply sorted_ordered; [apply pair_le_total|apply pair_le_trans]. }
  split; [done|]. split; [done|]. split; [|split; [|split]].
  - intros p c. unfold with_rank, out, _prioritize_violations.
    apply sorted_filter; [apply pair_le_refl|].
    intros a b [Ha1 Ha2] [Hb1 Hb2]. unfold priority_cost_key. congruence.
  - intros i j vi vj Hij Hi Hj.
    destruct (decide (i = j)) as [->|Hne].
    + rewrite Hi in Hj. injection Hj as ->.
      rewrite Forall_forall in Hkeys.
      destruct (Hkeys vj) as (p & c & Hp & _); [by eapply list_elem_of_lookup_2|].
      exists p, p. repeat split; [done..|lia].
    + assert (Hlt : (i < j)%nat) by lia.
      destruct (StronglySorted_lookup _ out i j vi vj Hsorted Hi Hj Hlt)
        as (pa & ca & pb & cb & Hpa & _ & Hpb & _ & Hr).
      exists pa, pb. repeat split; [done..|lia].
  - intros Hin v Hv. rewrite Hperm in Hv.
    apply list_elem_of_fmap in Hv as (v0 & -> & Hv0).
    apply prioritize_one_priority. eauto.
  - intros ms ds v Hv. rewrite evaluate_perm in Hv.
    apply list_elem_of_fmap in Hv as (v0 & -> & Hv0).
    apply prioritize_one_priority. intros p Hp.
    apply list_elem_of_In, in_flat_map in Hv0 as (d & _ & Hd).
    apply list_elem_of_In, check_detection_priority in Hd as (p' & Hp' & Hr).
    congruence.
Qed.

(** ** Floats that stay finite

    Rounding a mantissa and exponent to binary64 gives a finite float
    when the value is far enough below [2 ^ 1024]; products, quotients
    and conversions of bounded values are therefore finite, and [int]
    returns on them. *)

Lemma pow2_exponent_nonneg n k : 0 ≤ n → n < 2 ^ k → 0 ≤ k.
Proof.
  intros Hn Hk. destruct (Z.le_gt_cases 0 k) as [?|Hneg]; [done|].
  rewrite Z.pow_neg_r in Hk by done. lia.
Qed.

Lemma digits2_pos_size p : digits2_pos p = Pos.size p.
Proof. induction p; simpl; congruence. Qed.

(** A number below [2 ^ j] has at most [j] binary digits. *)
Lemma Zdigits2_le m j : 0 ≤ m → m < 2 ^ j → Zdigits2 m ≤ j.
Proof.
  intros Hm Hj. pose proof (pow2_exponent_nonneg _ _ Hm Hj).
  destruct m as [|p|p]; [done| |lia]. simpl.
  rewrite digits2_pos_size.
  pose proof (Pos.size_le p) as Hs.
  apply Pos2Z.pos_le_pos in Hs. rewrite Pos2Z.inj_pow in Hs.
  assert (Hlt : 2 ^ Z.pos (Pos.size p) < 2 ^ (Z.succ j)).
  { rewrite Z.pow_succ_r by lia. lia. }
  apply Z.pow_lt_mono_r_iff in Hlt; lia.
Qed.

Lemma shift_lt m' m d j : 0 ≤ d → 0 ≤ j → m' * 2 ^ d ≤ m → m < 2 ^ (j + d) → m' < 2 ^ j.
Proof.
  intros Hd Hj H1 H2. rewrite Z.pow_add_r in H2 by done.
  assert (0 < 2 ^ d) by (apply Z.pow_pos_nonneg; lia). nia.
Qed.

Lemma shift_le m' m d j : 0 ≤ d → 0 ≤ j → m' * 2 ^ d ≤ m → m ≤ 2 ^ (j + d) → m' ≤ 2 ^ j.
Proof.
  intros Hd Hj H1 H2. rewrite Z.pow_add_r in H2 by done.
  assert (0 < 2 ^ d) by (apply Z.pow_pos_nonneg; lia). nia.
Qed.

Lemma shr_1_m mrs : 0 ≤ shr_m mrs → 0 ≤ shr_m (shr_1 mrs) ∧ shr_m (shr_1 mrs) * 2 ≤ shr_m mrs.
Proof.
  destruct mrs as [m r s]. simpl. intros Hm.
  destruct m as [|[p|p|]|p]; simpl; lia.
Qed.

(** Shifting a mantissa right by [p] bits divides it by [2 ^ p], rounding
    down. *)
Lemma iter_shr_1_m p mrs :
  0 ≤ shr_m mrs →
  0 ≤ shr_m (SpecFloat.iter_pos shr_1 p mrs) ∧
  shr_m (SpecFloat.iter_pos shr_1 p mrs) * 2 ^ Z.pos p ≤ shr_m mrs.
Proof.
  revert mrs. induction p as [p IH|p IH|]; intros mrs Hm; cbn [SpecFloat.iter_pos].
  - destruct (shr_1_m mrs Hm) as [H1 H2].
    destruct (IH _ H1) as [H3 H4]. destruct (IH _ H3) as [H5 H6].
    split; [done|].
    replace (Z.pos p~1) with (Z.pos p + Z.pos p + 1) by lia.
    rewrite !Z.pow_add_r by lia. change (2 ^ 1) with 2.
    assert (0 < 2 ^ Z.pos p) by (apply Z.pow_pos_nonneg; lia).
    apply (Z.mul_le_mono_nonneg_r _ _ (2 ^ Z.pos p)) in H6; [|lia].
    set (P := 2 ^ Z.pos p) in *. clearbody P. lia.
  - destruct (IH _ Hm) as [H3 H4]. destruct (IH _ H3) as [H5 H6].
    split; [done|].
    replace (Z.pos p~0) with (Z.pos p + Z.pos p) by lia.
    rewrite !Z.pow_add_r by lia.
    assert (0 < 2 ^ Z.pos p) by (apply Z.pow_pos_nonneg; lia).
    apply (Z.mul_le_mono_nonneg_r _ _ (2 ^ Z.pos p)) in H6; [|lia].
    set (P := 2 ^ Z.pos p) in *. clearbody P. lia.
  - destruct (shr_1_m mrs Hm) as [H1 H2]. split; [done|]. lia.
Qed.

Lemma shr_record_of_loc_m m l : shr_m (shr_record_of_loc m l) = m.
Proof. by destruct l as [|[]]. Qed.

Lemma shr_fexp_m m e l :
  0 ≤ m →
  let '(mrs, e') := shr_fexp Py.prec Py.emax m e l in
  0 ≤ shr_m mrs ∧ e ≤ e' ∧ shr_m mrs * 2 ^ (e' - e) ≤ m ∧
  (e' = e ∨ e' = fexp Py.prec Py.emax (Zdigits2 m + e)).
Proof.
  intros Hm. unfold shr_fexp, shr.
  destruct (fexp Py.prec Py.emax (Zdigits2 m + e) - e) as [|p|p] eqn:E.
  - rewrite shr_record_of_loc_m, Z.sub_diag. simpl. lia.
  - destruct (iter_shr_1_m p (shr_record_of_loc m l)) as [H1 H2];
      [by rewrite shr_record_of_loc_m|].
    rewrite shr_record_of_loc_m in H2.
    replace (e + Z.pos p - e) with (Z.pos p) by lia.
    repeat split; [done|lia|done|lia].
  - rewrite shr_record_of_loc_m, Z.sub_diag. simpl. lia.
Qed.

Lemma round_nearest_even_bounds m l :
  m ≤ round_nearest_even m l ≤ m + 1.
Proof.
  unfold round_nearest_even. destruct l as [|[]]; try lia.
  destruct (Z.even m); lia.
Qed.

(** Rounding [m * 2 ^ e], a value below [2 ^ k], to binary64 gives zero
    or a finite float below [2 ^ (k + 1)]: it does not overflow. *)
Lemma binary_round_aux_bounded s m e l k :
  0 ≤ m → m < 2 ^ (k - e) → e ≤ Py.emax - Py.prec → SpecFloat.emin Py.prec Py.emax ≤ k → k < Py.emax →
  mag_le (k + 1) (binary_round_aux Py.prec Py.emax s m e l).
Proof.
  intros Hm Hk He Hmin Hmax.
  pose proof (pow2_exponent_nonneg _ _ Hm Hk) as Hek.
  pose proof (Zdigits2_le m (k - e) Hm Hk) as Hd.
  unfold binary_round_aux.
  pose proof (shr_fexp_m m e l Hm) as H1.
  destruct (shr_fexp Py.prec Py.emax m e l) as [mrs' e'].
  destruct H1 as (Hm' & Hee' & Hv' & Hcase').
  pose proof (round_nearest_even_bounds (shr_m mrs') (loc_of_shr_record mrs')) as Hr.
  set (m1 := round_nearest_even (shr_m mrs') (loc_of_shr_record mrs')) in *.
  assert (He'k' : e' ≤ k).
  { destruct Hcase' as [->| ->]; [lia|].
    unfold fexp, SpecFloat.emin, Py.prec, Py.emax in *. lia. }
  assert (He'max : e' ≤ Py.emax - Py.prec).
  { destruct Hcase' as [->| ->]; [done|].
    unfold fexp, SpecFloat.emin, Py.prec, Py.emax in *. lia. }
  assert (Hm'lt : shr_m mrs' < 2 ^ (k - e')).
  { apply (shift_lt _ m (e' - e)); [lia|lia|done|].
    by replace (k - e' + (e' - e)) with (k - e) by lia. }
  assert (Hm1 : 0 ≤ m1 ∧ m1 ≤ 2 ^ (k - e')) by lia.
  assert (Hd1 : Zdigits2 m1 ≤ k - e' + 1).
  { apply Zdigits2_le; [lia|]. change (k - e' + 1) with (Z.succ (k - e')). rewrite Z.pow_succ_r by lia. lia. }
  pose proof (shr_fexp_m m1 e' loc_Exact (proj1 Hm1)) as H2.
  destruct (shr_fexp Py.prec Py.emax m1 e' loc_Exact) as [mrs'' e''].
  destruct H2 as (Hm2 & Hee'' & Hv'' & Hcase'').
  assert (He''max : e'' ≤ Py.emax - Py.prec).
  { destruct Hcase'' as [->| ->]; [done|].
    unfold fexp, SpecFloat.emin, Py.prec, Py.emax in *. lia. }
  assert (He''k : e'' ≤ k).
  { destruct Hcase'' as [->| ->]; [done|].
    unfold fexp, SpecFloat.emin, Py.prec, Py.emax in *. lia. }
  assert (Hm2le : shr_m mrs'' ≤ 2 ^ (k - e'')).
  { apply (shift_le _ m1 (e'' - e')); [lia|lia|done|].
    replace (k - e'' + (e'' - e')) with (k - e') by lia. lia. }
  destruct (shr_m mrs'') as [|p|p]; [done| |lia].
  rewrite (proj2 (Z.leb_le _ _) He''max). simpl.
  replace (k + 1 - e'') with (Z.succ (k - e'')) by lia.
  rewrite Z.pow_succ_r by lia. lia.
Qed.

Lemma mag_le_exp k s m e : mag_le k (S754_finite s m e) → e + 1 ≤ k.
Proof.
  simpl. intros H. destruct (Z.le_gt_cases 1 (k - e)) as [?|Hn]; [lia|].
  assert (k - e = 0 ∨ k - e < 0) as [Hz|Hz] by lia.
  - rewrite Hz in H. simpl in H. lia.
  - rewrite Z.pow_neg_r in H by done. lia.
Qed.

Lemma mag_le_mono k k' x : k ≤ k' → mag_le k x → mag_le k' x.
Proof.
  intros Hk. destruct x as [| | |s m e]; try done.
  intros H. pose proof (mag_le_exp _ _ _ _ H). simpl in *.
  eapply Z.lt_le_trans; [exact H|]. apply Z.pow_le_mono_r; lia.
Qed.

(** Products and quotients of bounded floats are bounded. *)
Lemma SFmul_bounded x y kx ky :
  mag_le kx x → mag_le ky y →
  SpecFloat.emin Py.prec Py.emax ≤ kx + ky → kx + ky ≤ Py.emax - Py.prec + 2 →
  mag_le (kx + ky + 1) (SFmul Py.prec Py.emax x y).
Proof.
  intros Hx Hy Hmin Hmax.
  destruct x as [sx| | |sx mx ex], y as [sy| | |sy my ey]; try done.
  pose proof (mag_le_exp _ _ _ _ Hx). pose proof (mag_le_exp _ _ _ _ Hy).
  simpl in Hx, Hy. unfold SFmul.
  apply binary_round_aux_bounded; [lia| |lia|done|unfold Py.emax, Py.prec in *; lia].
  replace (kx + ky - (ex + ey)) with ((kx - ex) + (ky - ey)) by lia.
  rewrite Z.pow_add_r, Pos2Z.inj_mul by lia. nia.
Qed.

Lemma SFdiv_core_binary_bounded m1 e1 m2 e2 k :
  0 < m1 → 0 < m2 → m1 < 2 ^ (k - e1) →
  let '(q, e', l) := SFdiv_core_binary Py.prec Py.emax m1 e1 m2 e2 in
  0 ≤ q ∧ e' ≤ e1 - e2 ∧ q < 2 ^ (k - e2 - e').
Proof.
  intros H1 H2 Hk. unfold SFdiv_core_binary.
  set (e' := Z.min _ (e1 - e2)).
  assert (He' : e' ≤ e1 - e2) by apply Z.le_min_r.
  set (m' := match e1 - e2 - e' with Z.pos _ => _ | 0 => _ | Z.neg _ => _ end).
  assert (Hm' : m' = m1 * 2 ^ (e1 - e2 - e')).
  { unfold m'. destruct (e1 - e2 - e') as [|p|p] eqn:E; [simpl; lia| |lia].
    by rewrite Z.shiftl_mul_pow2. }
  pose proof (Z_div_mod m' m2 ltac:(lia)) as Hdiv.
  destruct (Z.div_eucl m' m2) as [q r]. destruct Hdiv as [Hq Hr].
  assert (0 < 2 ^ (e1 - e2 - e')) by (apply Z.pow_pos_nonneg; lia).
  pose proof (pow2_exponent_nonneg m1 _ ltac:(lia) Hk).
  assert (Hq0 : 0 ≤ q) by nia.
  split; [done|]. split; [done|].
  replace (k - e2 - e') with ((k - e1) + (e1 - e2 - e')) by lia.
  rewrite Z.pow_add_r by lia.
  assert (q ≤ m') by nia. nia.
Qed.

Lemma SFdiv_bounded x sy my ey kx :
  mag_le kx x →
  SpecFloat.emin Py.prec Py.emax ≤ kx - ey → kx - ey ≤ Py.emax - Py.prec + 1 →
  mag_le (kx - ey + 1) (SFdiv Py.prec Py.emax x (S754_finite sy my ey)).
Proof.
  intros Hx Hmin Hmax. destruct x as [sx| | |sx mx ex]; try done.
  pose proof (mag_le_exp _ _ _ _ Hx). simpl in Hx. unfold SFdiv.
  pose proof (SFdiv_core_binary_bounded (Z.pos mx) ex (Z.pos my) ey kx
                ltac:(lia) ltac:(lia) Hx) as Hcore.
  destruct (SFdiv_core_binary Py.prec Py.emax (Z.pos mx) ex (Z.pos my) ey) as [[q e'] l].
  destruct Hcore as (Hq & He' & Hlt).
  apply binary_round_aux_bounded; [done|done| | |];
    unfold Py.emax, Py.prec in *; lia.
Qed.

Lemma shl_align_value mx ex ex' :
  let '(mz, ez) := shl_align mx ex ex' in
  ez ≤ ex ∧ Z.pos mz = Z.pos mx * 2 ^ (ex - ez).
Proof.
  unfold shl_align. destruct (ex' - ex) as [|d|d] eqn:E.
  - rewrite Z.sub_diag. simpl. lia.
  - rewrite Z.sub_diag. simpl. lia.
  - split; [lia|].
    replace (ex - ex') with (Z.pos d) by lia.
    change (Pos.iter xO mx d) with (shift_pos d mx).
    rewrite shift_pos_correct. rewrite Z.pow_pos_fold. lia.
Qed.

(** The float of a natural number below [2 ^ k] is finite. *)
Lemma of_int_bounded n k :
  0 ≤ n → n < 2 ^ k → k < Py.emax →
  mag_le (k + 1) (binary_normalize Py.prec Py.emax n 0 false).
Proof.
  intros Hn Hk Hmax. destruct n as [|p|p]; [done| |lia].
  pose proof (pow2_exponent_nonneg _ _ Hn Hk).
  unfold binary_normalize, binary_round.
  pose proof (shl_align_value p 0 (fexp Py.prec Py.emax (Z.pos (digits2_pos p) + 0))) as Hal.
  destruct (shl_align _ _ _) as [mz ez]. destruct Hal as [Hez Hmz].
  apply binary_round_aux_bounded; [lia| | | |done];
    [|unfold Py.emax, Py.prec; lia|unfold SpecFloat.emin, Py.emax, Py.prec; lia].
  rewrite Hmz. replace (k - ez) with (k + (0 - ez)) by lia.
  rewrite Z.pow_add_r by lia.
  assert (0 < 2 ^ (0 - ez)) by (apply Z.pow_pos_nonneg; lia). nia.
Qed.

(** [int], [float(n)], [int(n * x)] and [a / b] return on bounded
    arguments. *)
Lemma int_returns k x : mag_le k x → ∃ z, Py.int x = Py.Returns z.
Proof. destruct x; simpl; try done; eauto. Qed.

Lemma float_of_int_returns n k :
  0 ≤ n → n < 2 ^ k → k < Py.emax →
  ∃ x, Py.float_of_int n = Py.Returns x ∧ mag_le (k + 1) x.
Proof.
  intros Hn Hk Hmax. pose proof (of_int_bounded n k Hn Hk Hmax) as H.
  unfold Py.float_of_int, Py.of_int.
  destruct (binary_normalize Py.prec Py.emax n 0 false); try done; eauto.
Qed.

Lemma fmul_bounded x y kx ky :
  mag_le kx x → mag_le ky y →
  -1074 ≤ kx + ky → kx + ky ≤ 973 →
  mag_le (kx + ky + 1) (Py.fmul x y).
Proof. intros. by apply SFmul_bounded. Qed.

Lemma fdiv_bounded x y kx ey :
  mag_le kx x → exponent_of y = Some ey →
  -1074 ≤ kx - ey → kx - ey ≤ 972 →
  mag_le (kx - ey + 1) (Py.fdiv x y).
Proof.
  intros Hx Hy ? ?. destruct y as [| | |sy my ey']; try done.
  injection Hy as ->. by apply SFdiv_bounded.
Qed.

Lemma int_mul_returns n k c kc :
  0 ≤ n → n < 2 ^ k → k ≤ 900 → mag_le kc c → -100 ≤ kc ≤ 60 →
  ∃ z, Py.int_mul n c = Py.Returns z.
Proof.
  intros Hn Hk Hk' Hc Hkc.
  pose proof (pow2_exponent_nonneg _ _ Hn Hk).
  destruct (float_of_int_returns n k) as (x & Hx & Hb);
    [done|done|unfold Py.emax; lia|].
  unfold Py.int_mul. rewrite Hx. cbn [mbind Py.outcome_bind].
  apply (int_returns (k + 1 + kc + 1)).
  apply fmul_bounded; [done|done|lia|lia].
Qed.

Lemma truediv_int_returns a b k :
  0 ≤ a → a < 2 ^ k → 0 < b → k < Py.emax →
  ∃ x, Py.truediv_int a b = Py.Returns x ∧ mag_le (k + 1) x.
Proof.
  intros Ha Hk Hb Hmax. unfold Py.truediv_int.
  pose proof (pow2_exponent_nonneg _ _ Ha Hk).
  destruct b as [|pb|pb]; [lia| |lia].
  destruct a as [|pa|pa]; [eexists; split; [reflexivity|done]| |lia].
  change (Z.abs (Z.pos pa)) with (Z.pos pa).
  change (Z.abs (Z.pos pb)) with (Z.pos pb).
  pose proof (SFdiv_core_binary_bounded (Z.pos pa) 0 (Z.pos pb) 0 k
                ltac:(lia) ltac:(lia)) as Hcore.
  rewrite Z.sub_0_r in Hcore. specialize (Hcore Hk).
  destruct (SFdiv_core_binary Py.prec Py.emax (Z.pos pa) 0 (Z.pos pb) 0)
    as [[q e'] l].
  destruct Hcore as (Hq & He' & Hlt).
  assert (Hr : mag_le (k + 1)
                 (binary_round_aux Py.prec Py.emax
                    (xorb (Z.pos pa <? 0) (Z.pos pb <? 0)) q e' l)).
  { apply binary_round_aux_bounded; [done|done| | |done].
    - unfold Py.emax, Py.prec. lia.
    - unfold SpecFloat.emin, Py.emax, Py.prec. lia. }
  destruct (binary_round_aux _ _ _ q e' l); try done; eauto.
Qed.

(** ** The cost estimator *)

Lemma bind_returns {A B} (m : Py.outcome A) (f : A → Py.outcome B) b :
  m ≫= f = Py.Returns b → ∃ a, m = Py.Returns a ∧ f a = Py.Returns b.
Proof. destruct m as [a|e]; [eauto|discriminate]. Qed.

Lemma estimate_one_returns m acc v acc' :
  estimate_one m acc v = Py.Returns acc' →
  ∃ v', costed_by m v v' ∧ t_violations acc' = t_violations acc ++ [v'] ∧
    match BASE_COSTS !! type v with
    | Some _ =>
        ∃ b, entry_of v' b ∧ t_breakdown acc' = t_breakdown acc ++ [b] ∧
          t_total_cost acc' = t_total_cost acc + b_cost b ∧
          t_total_labor_hours acc' = t_total_labor_hours acc + b_labor_hours b
    | None =>
        t_breakdown acc' = t_breakdown acc ∧
        t_total_cost acc' = t_total_cost acc + 1000 ∧
        t_total_labor_hours acc' = t_total_labor_hours acc + 8
    end.
Proof.
  unfold estimate_one, costed_by. destruct (BASE_COSTS !! type v) as [info|] eqn:Hty.
  - intros (adjusted & Hadj & [= <-])%bind_returns.
    eexists. split; [|split; [reflexivity|]].
    + simpl. repeat (split; [done|]). eauto.
    + eexists. split; [|done]. by unfold entry_of.
  - intros [= <-]. eexists. split; [|split; [reflexivity|done]].
    by simpl.
Qed.

Lemma costed_by_known m v v' : costed_by m v v' → known v' ↔ known v.
Proof. intros (Hty & _). unfold known. by rewrite Hty. Qed.

(** The loop of [estimate]: every violation is costed, the known types
    get a breakdown entry each, and the unknown ones add the default
    cost and labor to the totals only. *)
Lemma estimate_loop_returns m vs acc acc' :
  estimate_loop m vs acc = Py.Returns acc' →
  ∃ vs' entries,
    Forall2 (costed_by m) vs vs' ∧
    t_violations acc' = t_violations acc ++ vs' ∧
    t_breakdown acc' = t_breakdown acc ++ entries ∧
    Forall2 entry_of (filter known vs') entries ∧
    t_total_cost acc' =
      t_total_cost acc + sum_with b_cost entries
      + 1000 * Z.of_nat (length (filter (λ v, ¬ known v) vs)) ∧
    t_total_labor_hours acc' =
      t_total_labor_hours acc + sum_with b_labor_hours entries
      + 8 * Z.of_nat (length (filter (λ v, ¬ known v) vs)).
Proof.
  revert acc. induction vs as [|v vs IH]; intros acc; simpl.
  - intros [= <-]. exists [], []. rewrite !app_nil_r. simpl.
    repeat split; try constructor; lia.
  - intros (acc1 & Hone & Hrest)%bind_returns.
    apply estimate_one_returns in Hone as (v' & Hv' & Hvs1 & Hcase).
    apply IH in Hrest as (vs' & entries & Hvs' & Hvs2 & Hb2 & Hent & Hc & Hl).
    pose proof (costed_by_known _ _ _ Hv') as Hk.
    destruct (BASE_COSTS !! type v) as [info|] eqn:Hty.
    + destruct Hcase as (b & Hb & Hb1 & Hc1 & Hl1).
      assert (Kv : known v) by (unfold known; rewrite Hty; eauto).
      exists (v' :: vs'), (b :: entries).
      rewrite (filter_cons_True known) by (by apply Hk).
      rewrite (filter_cons_False (λ v, ¬ known v)) by (by intros H; apply H).
      rewrite Hvs2, Hvs1, Hb2, Hb1, <- !app_assoc.
      repeat split; try (by constructor); unfold sum_with in *; simpl; lia.
    + destruct Hcase as (Hb1 & Hc1 & Hl1).
      assert (Kv : ¬ known v) by (unfold known; rewrite Hty; by intros [? ?]).
      exists (v' :: vs'), entries.
      rewrite (filter_cons_False known) by (by rewrite Hk).
      rewrite (filter_cons_True (λ v, ¬ known v)) by done.
      rewrite Hvs2, Hvs1, Hb2, Hb1, <- !app_assoc.
      repeat split; try done; try (by constructor); simpl length; lia.
Qed.

(** For every entry of the cost table and every complexity key, known or
    not, [int(base_cost * multiplier)] and [round(base_cost * multiplier)]
    return the same integer, at most 5250; no entry has more than 24
    labor hours. *)
Lemma adjusted_cost_rounds ty info complexity :
  BASE_COSTS !! ty = Some info →
  ∃ adjusted,
    Py.int_mul (typical info) (multiplier_of complexity) = Py.Returns adjusted ∧
    round_mul (typical info) (multiplier_of complexity) = Py.Returns adjusted ∧
    0 ≤ adjusted ≤ 5250 ∧ 0 ≤ ci_labor_hours info ≤ 24.
Proof.
  intros Hty. unfold multiplier_of.
  assert (Hm : default (Py.literal 10 10) (COMPLEXITY_FACTORS !! complexity)
               ∈ [Py.literal 13 10; Py.literal 15 10; Py.literal 14 10;
                  Py.literal 12 10; Py.literal 10 10]).
  { destruct (COMPLEXITY_FACTORS !! complexity) as [m|] eqn:Hc; simpl.
    - apply elem_of_list_to_map_2 in Hc.
      repeat (apply elem_of_cons in Hc as [[= _ ->]|Hc]; [set_solver|]).
      by apply elem_of_nil in Hc.
    - set_solver. }
  apply elem_of_list_to_map_2 in Hty.
  repeat (apply elem_of_cons in Hty as [[= _ ->]|Hty];
    [repeat (apply elem_of_cons in Hm as [->|Hm];
       [eexists; split; [vm_compute; reflexivity|];
        split; [vm_compute; reflexivity|]; simpl; lia|]);
     by apply elem_of_nil in Hm|]).
  by apply elem_of_nil in Hty.
Qed.

Lemma estimate_returns_inv vs complexity e vs' :
  vs ≠ [] → estimate vs complexity = Py.Returns (e, vs') →
  ∃ acc tl k,
    estimate_loop (multiplier_of complexity) vs
      {| t_breakdown := []; t_total_cost := 0;
         t_total_labor_hours := 0; t_violations := [] |} = Py.Returns acc ∧
    _estimate_timeline (t_total_labor_hours acc) (Z.of_nat (length vs))
      = Py.Returns tl ∧
    Py.int_mul (t_total_cost acc) (Py.literal 12 100) = Py.Returns k ∧
    vs' = t_violations acc ∧
    e = {| total_cost := t_total_cost acc; contingency := Some k;
           total_with_contingency := Some (t_total_cost acc + k);
           timeline := tl; breakdown := t_breakdown acc;
           e_labor_hours := t_total_labor_hours acc;
           complexity_factor := Some (multiplier_of complexity) |}.
Proof.
  intros Hne. unfold estimate. destruct vs as [|v vs]; [done|].
  fold (multiplier_of complexity).
  intros (acc & Hacc & (tl & Htl & (k & Hk & [= <- <-])%bind_returns)%bind_returns)%bind_returns.
  by exists acc, tl, k.
Qed.

Lemma all_known_iff vs :
  length (filter (λ v, ¬ known v) vs) = 0%nat ↔ Forall known vs.
Proof.
  induction vs as [|v vs IH]; simpl; [by split; [constructor|]|].
  rewrite filter_cons, Forall_cons. destruct (decide (¬ known v)) as [Hv|Hv]; simpl.
  - split; [lia|]. by intros [? _].
  - rewrite IH. apply dec_stable in Hv. tauto.
Qed.

Lemma estimate_one_total complexity acc v :
  ∃ acc', estimate_one (multiplier_of complexity) acc v = Py.Returns acc' ∧
    t_total_cost acc ≤ t_total_cost acc' ≤ t_total_cost acc + 5250 ∧
    t_total_labor_hours acc ≤ t_total_labor_hours acc'
      ≤ t_total_labor_hours acc + 24.
Proof.
  unfold estimate_one. destruct (BASE_COSTS !! type v) as [info|] eqn:Hty.
  - destruct (adjusted_cost_rounds _ info complexity Hty) as (a & Ha & _ & Hb & Hl).
    rewrite Ha. cbn [mbind Py.outcome_bind].
    eexists. split; [reflexivity|]. simpl. lia.
  - eexists. split; [reflexivity|]. simpl. lia.
Qed.

(** The loop of [estimate] never raises, and the totals it returns are
    bounded by the length of the list. *)
Lemma estimate_loop_total complexity vs acc :
  ∃ acc', estimate_loop (multiplier_of complexity) vs acc = Py.Returns acc' ∧
    t_total_cost acc ≤ t_total_cost acc'
      ≤ t_total_cost acc + 5250 * Z.of_nat (length vs) ∧
    t_total_labor_hours acc ≤ t_total_labor_hours acc'
      ≤ t_total_labor_hours acc + 24 * Z.of_nat (length vs).
Proof.
  revert acc. induction vs as [|v vs IH]; intros acc.
  - exists acc. split; [done|]. simpl. lia.
  - destruct (estimate_one_total complexity acc v) as (acc1 & H1 & Hc1 & Hl1).
    destruct (IH acc1) as (acc' & H2 & Hc2 & Hl2).
    exists acc'. cbn [estimate_loop]. rewrite H1. cbn [mbind Py.outcome_bind].
    split; [done|]. cbn [length]. lia.
Qed.

Lemma _estimate_timeline_returns hours n :
  0 ≤ hours → hours < 2 ^ 800 → ∃ tl, _estimate_timeline hours n = Py.Returns tl.
Proof.
  intros H0 Hlt. unfold _estimate_timeline.
  destruct (float_of_int_returns hours 800) as (x & -> & Hx); [done..|].
  cbn [mbind Py.outcome_bind].
  set (days0 := Py.fdiv x _).
  assert (Hd0 : mag_le (801 - (-48) + 1) days0).
  { apply fdiv_bounded; [done|by vm_compute|lia|lia]. }
  set (days := Py.fmul days0 _).
  assert (Hd : mag_le (850 + 1 + 1) days).
  { apply fmul_bounded; [done|by vm_compute|lia|lia]. }
  set (weeks := Py.fdiv days _).
  assert (Hw : mag_le (852 - (-50) + 1) weeks).
  { apply fdiv_bounded; [done|by vm_compute|lia|lia]. }
  assert (Hm : mag_le (903 - (-50) + 1) (Py.fdiv weeks (Py.of_int 4))).
  { apply fdiv_bounded; [done|by vm_compute|lia|lia]. }
  destruct (int_returns _ _ Hd) as [zd Hzd].
  destruct (int_returns _ _ Hw) as [zw Hzw].
  destruct (int_returns _ _ Hm) as [zm Hzm].
  rewrite Hzd, Hzw, Hzm. cbn [mbind Py.outcome_bind].
  repeat (destruct (Py.lt weeks _); [eauto|]). eauto.
Qed.

(** [estimate] returns on every list a machine can hold. *)
Lemma estimate_returns vs complexity :
  Z.of_nat (length vs) < 2 ^ 64 →
  ∃ e vs', estimate vs complexity = Py.Returns (e, vs').
Proof.
  intros Hlen. unfold estimate. destruct vs as [|v vs]; [eauto|].
  fold (multiplier_of complexity).
  destruct (estimate_loop_total complexity (v :: vs)
              {| t_breakdown := []; t_total_cost := 0;
                 t_total_labor_hours := 0; t_violations := [] |})
    as (acc & -> & Hc & Hl). cbn [t_total_cost t_total_labor_hours] in Hc, Hl.
  assert (Hbig : 5250 * 2 ^ 64 ≤ 2 ^ 800).
  { transitivity (2 ^ 13 * 2 ^ 64).
    - apply Z.mul_le_mono_nonneg_r; [by apply Z.pow_nonneg|done].
    - rewrite <- Z.pow_add_r by lia. apply Z.pow_le_mono_r; lia. }
  cbn [mbind Py.outcome_bind].
  destruct (_estimate_timeline_returns (t_total_labor_hours acc)
              (Z.of_nat (length (v :: vs)))) as [tl ->]; [lia|lia|].
  cbn [mbind Py.outcome_bind].
  destruct (int_mul_returns (t_total_cost acc) 800 (Py.literal 12 100) 0)
    as [k ->]; [lia|lia|lia|by vm_compute|lia|].
  cbn [mbind Py.outcome_bind]. eauto.
Qed.

(** C5.  On the empty list [estimate] returns at once, without an
    error, a dict with total cost 0, timeline ["N/A"], an empty
    breakdown and 0 labor hours, and with no contingency entry at all:
    the three keys that the general case adds are missing, and
    [generate_cost_summary], which reads one of them, fails on the empty
    list. *)
Theorem estimate_empty_lacks_contingency (complexity : string) :
  estimate [] complexity =
    Py.Returns ({| total_cost := 0; contingency := None;
                   total_with_contingency := None; timeline := "N/A";
                   breakdown := []; e_labor_hours := 0;
                   complexity_factor := None |}, []) ∧
  generate_cost_summary [] = Py.Raises (Py.KeyError "total_with_contingency").
Proof. done. Qed.

(** C4, as the code has it.  For a non-empty list and any complexity
    key, known or not, the estimate carries the multiplier of the key
    (1.0 for an unknown key); its contingency is [total_cost * 0.12]
    truncated toward zero by [int], not rounded; the total with
    contingency is the total cost plus that contingency; and the cost
    written for a violation of a known type is
    [int(base_cost * multiplier)], which for every table entry is also
    [round(base_cost * multiplier)]. *)
Theorem estimate_contingency_truncates (violations : list Violation)
    (complexity : string) :
  violations ≠ [] →
  (Z.of_nat (length violations) < 2 ^ 64 →
   ∃ e violations', estimate violations complexity = Py.Returns (e, violations')) ∧
  ∀ e violations',
    estimate violations complexity = Py.Returns (e, violations') →
    complexity_factor e = Some (multiplier_of complexity) ∧
    (COMPLEXITY_FACTORS !! complexity = None →
     multiplier_of complexity = Py.literal 10 10) ∧
    (∃ k, Py.int_mul (total_cost e) (Py.literal 12 100) = Py.Returns k ∧
          contingency e = Some k ∧
          total_with_contingency e = Some (total_cost e + k)) ∧
    Forall2 (λ v v', ∀ info, BASE_COSTS !! type v = Some info →
               ∃ adjusted, cost v' = Some adjusted ∧
                 Py.int_mul (typical info) (multiplier_of complexity)
                   = Py.Returns adjusted ∧
                 round_mul (typical info) (multiplier_of complexity)
                   = Py.Returns adjusted)
            violations violations'.
Proof.
  intros Hne. split; [apply estimate_returns|]. intros e violations' He.
  apply estimate_returns_inv in He as (acc & tl & k & Hloop & _ & Hk & -> & ->);
    [|done].
  apply estimate_loop_returns in Hloop
    as (vs' & entries & Hvs & Hvs' & _). simpl in *. subst vs'.
  split; [done|]. split; [by unfold multiplier_of; intros ->|].
  split; [eauto|].
  eapply Forall2_impl; [exact Hvs|].
  intros v v' (_ & _ & _ & Hcost) info Hinfo. rewrite Hinfo in Hcost.
  destruct Hcost as (adjusted & Hadj & Hc & _).
  exists adjusted. repeat (split; [done|]).
  destruct (adjusted_cost_rounds (type v) info complexity Hinfo)
    as (a & Ha & Hr & _).
  congruence.
Qed.

(** C4, as stated, fails: one missing detectable warning in a
    high-traffic urban site costs 1040; the contingency is 124, although
    [1040 * 0.12] rounds to 125. *)
Lemma contingency_not_rounded :
  let v := violation_of "Detectable Warning" High (Some 1) None in
  ∃ e vs', estimate [v] "urban_high_traffic" = Py.Returns (e, vs') ∧
    total_cost e = 1040 ∧ contingency e = Some 124 ∧
    round_mul 1040 (Py.literal 12 100) = Py.Returns 125.
Proof. do 2 eexists. by vm_compute. Qed.

(** C10.  In a non-empty list, a violation whose type is not in the cost
    table is written the default cost 1000 and 8 labor hours, which are
    added to the totals, and gets no breakdown entry; the violations of
    known types get one entry each, in order.  So the total cost is the
    sum of the breakdown costs plus 1000 per unknown violation: the two
    are equal exactly when every type is known, and the breakdown sum is
    strictly smaller otherwise. *)
Theorem breakdown_omits_unknown_types (violations : list Violation)
    (complexity : string) :
  violations ≠ [] →
  (Z.of_nat (length violations) < 2 ^ 64 →
   ∃ e violations', estimate violations complexity = Py.Returns (e, violations')) ∧
  ∀ e violations',
    estimate violations complexity = Py.Returns (e, violations') →
    let unknown := filter (λ v, ¬ known v) violations in
    Forall2 (costed_by (multiplier_of complexity)) violations violations' ∧
    Forall2 entry_of (filter known violations') (breakdown e) ∧
    total_cost e =
      sum_with b_cost (breakdown e) + 1000 * Z.of_nat (length unknown) ∧
    e_labor_hours e =
      sum_with b_labor_hours (breakdown e) + 8 * Z.of_nat (length unknown) ∧
    (sum_with b_cost (breakdown e) = total_cost e ↔ Forall known violations) ∧
    (¬ Forall known violations → sum_with b_cost (breakdown e) < total_cost e).
Proof.
  intros Hne. split; [apply estimate_returns|]. intros e violations' He unknown.
  apply estimate_returns_inv in He as (acc & tl & k & Hloop & _ & _ & -> & ->);
    [|done].
  apply estimate_loop_returns in Hloop
    as (vs' & entries & Hvs & Hvs' & Hb & Hent & Hc & Hl).
  simpl in *. subst vs'. rewrite Hb. fold unknown in Hc, Hl.
  pose proof (all_known_iff violations) as Hall. fold unknown in Hall.
  repeat split; try done; try lia.
  - intros Heq. apply Hall. lia.
  - intros Hk. apply Hall in Hk. lia.
  - intros Hk. rewrite <- Hall in Hk. lia.
Qed.

(** ** The compliance score *)

Lemma binary_round_aux_sign s m e l :
  match binary_round_aux Py.prec Py.emax s m e l with
  | S754_finite s' _ _ => s' = s
  | _ => True
  end.
Proof.
  unfold binary_round_aux.
  destruct (shr_fexp Py.prec Py.emax m e l) as [mrs' e'].
  destruct (shr_fexp _ _ _ e' _) as [mrs'' e''].
  destruct (shr_m mrs''); [done| |done]. by destruct (_ <=? _).
Qed.

Lemma truediv_int_not_negative a b x :
  0 ≤ a → 0 < b → Py.truediv_int a b = Py.Returns x → not_negative x.
Proof.
  intros Ha Hb. unfold Py.truediv_int.
  destruct b as [|pb|pb]; [lia| |lia].
  destruct a as [|pa|pa]; [by intros [= <-]| |lia].
  destruct (SFdiv_core_binary _ _ _ _ _ _) as [[q e] l].
  pose proof (binary_round_aux_sign
                (xorb (Z.pos pa <? 0) (Z.pos pb <? 0)) q e l) as Hs.
  destruct (binary_round_aux _ _ _ q e l); try discriminate;
    by intros [= <-].
Qed.

Lemma percent_not_negative x percent :
  not_negative x → Py.int (Py.fmul x (Py.of_int 100)) = Py.Returns percent →
  0 ≤ percent.
Proof.
  intros Hx. destruct x as [s| | |s m e]; try discriminate.
  - by intros [= <-].
  - simpl in Hx. subst s.
    assert (H100 : ∃ m' e', Py.of_int 100 = S754_finite false m' e')
      by (do 2 eexists; by vm_compute).
    destruct H100 as (m' & e' & ->). unfold Py.fmul, SFmul.
    pose proof (binary_round_aux_sign (xorb false false)
                  (Z.pos (m * m')) (e + e') SpecFloat.loc_Exact) as Hs.
    destruct (binary_round_aux _ _ _ _ _ _) as [| | |s2 m2 e2]; try discriminate.
    + by intros [= <-].
    + simpl in Hs. subst s2. intros [= <-]. simpl.
      by apply Z.shiftl_nonneg.
Qed.

(** The truncated percentage is never negative, so the score is at most
    100 before it is clamped. *)
Lemma truncated_score_shape total_weight max_weight s :
  0 ≤ total_weight → 0 < max_weight →
  truncated_score total_weight max_weight = Py.Returns s →
  ∃ percent, 0 ≤ percent ∧ s = Z.max 0 (100 - percent).
Proof.
  intros H0 Hmax. unfold truncated_score.
  intros (ratio & Hratio & (percent & Hp & [= <-])%bind_returns)%bind_returns.
  apply truediv_int_not_negative in Hratio; [|done..].
  apply percent_not_negative in Hp; [|done].
  exists percent. split; [done|lia].
Qed.

Lemma fold_left_weights vs acc :
  fold_left (λ acc v, acc + severity_weights (severity v)) vs acc =
  acc + sum_with (λ v, severity_weights (severity v)) vs.
Proof.
  revert acc. induction vs as [|v vs IH]; intros acc; simpl; [lia|].
  rewrite IH. unfold sum_with. simpl. lia.
Qed.

Lemma score_unfold vs ds :
  ds ≠ [] →
  _calculate_compliance_score vs ds =
  truncated_score (sum_with (λ v, severity_weights (severity v)) vs)
                  (Z.of_nat (length ds) * 3).
Proof.
  intros Hds. unfold _calculate_compliance_score.
  destruct ds as [|d ds]; [done|].
  rewrite fold_left_weights, Z.add_0_l.
  destruct (Z.of_nat (length (d :: ds)) * 3 =? 0) eqn:E; [simpl in E; lia|done].
Qed.

Lemma truncated_score_range total_weight max_weight s :
  truncated_score total_weight max_weight = Py.Returns s → 0 ≤ s ≤ 100.
Proof.
  unfold truncated_score.
  intros (ratio & _ & (percent & _ & [= <-])%bind_returns)%bind_returns. lia.
Qed.

Lemma weights_bound vs :
  0 ≤ sum_with (λ v, severity_weights (severity v)) vs ≤ 3 * Z.of_nat (length vs).
Proof.
  induction vs as [|v vs IH]; [done|].
  unfold sum_with in *. cbn [foldr length]. destruct (severity v); simpl; lia.
Qed.

Lemma truncated_score_returns total_weight max_weight :
  0 ≤ total_weight → total_weight < 2 ^ 800 → 0 < max_weight →
  ∃ s, truncated_score total_weight max_weight = Py.Returns s.
Proof.
  intros H0 Hlt Hmax. unfold truncated_score.
  destruct (truediv_int_returns total_weight max_weight 800)
    as (ratio & -> & Hratio); [done..|].
  cbn [mbind Py.outcome_bind].
  destruct (int_returns (801 + 7 + 1) (Py.fmul ratio (Py.of_int 100))) as [z ->].
  { apply fmul_bounded; [done|by vm_compute|lia|lia]. }
  cbn [mbind Py.outcome_bind]. eauto.
Qed.

(** The score is returned for every list a machine can hold. *)
Lemma score_returns vs ds :
  Z.of_nat (length vs) < 2 ^ 64 →
  ∃ s, _calculate_compliance_score vs ds = Py.Returns s.
Proof.
  intros Hlen. destruct ds as [|d ds]; [by exists 100|].
  rewrite score_unfold by done. pose proof (weights_bound vs).
  assert (3 * 2 ^ 64 ≤ 2 ^ 800).
  { transitivity (2 ^ 2 * 2 ^ 64).
    - apply Z.mul_le_mono_nonneg_r; [by apply Z.pow_nonneg|done].
    - rewrite <- Z.pow_add_r by lia. apply Z.pow_le_mono_r; lia. }
  apply truncated_score_returns; [lia|lia|]. cbn [length]. lia.
Qed.

(** C8.  The score is returned for every list of violations a machine
    can hold, and whenever it is returned it lies between 0 and 100; it
    is 100 when there is no violation, and 100 when there is no
    detection. *)
Theorem compliance_score_range (violations : list Violation)
    (detections : list Detection) :
  (Z.of_nat (length violations) < 2 ^ 64 →
   ∃ s, _calculate_compliance_score violations detections = Py.Returns s) ∧
  (∀ s, _calculate_compliance_score violations detections = Py.Returns s →
        0 ≤ s ≤ 100) ∧
  _calculate_compliance_score [] detections = Py.Returns 100 ∧
  _calculate_compliance_score violations [] = Py.Returns 100.
Proof.
  split; [apply score_returns|]. split; [|split; [|done]].
  - intros s. destruct detections as [|d ds]; [intros [= <-]; lia|].
    rewrite score_unfold by done. apply truncated_score_range.
  - destruct detections as [|d ds]; [done|].
    rewrite score_unfold by done. unfold truncated_score, sum_with. simpl foldr.
    destruct (Z.of_nat (length (d :: ds)) * 3) as [|p|p] eqn:E;
      [simpl in E; lia|done|simpl in E; lia].
Qed.

(** C9, as the code has it.  With at least one detection the score is
    100 minus the percentage [(total_weight / max_possible_weight) * 100]
    truncated toward zero by [int], not rounded, clamped to 0..100, where
    the total weight adds 3, 2 or 1 per violation of severity High,
    Medium or Low and the maximum weight is 3 per detection.  The
    percentage is never negative, so only the lower clamp can act; and
    the score is returned for every list of violations a machine can
    hold. *)
Theorem compliance_score_truncates (violations : list Violation)
    (detections : list Detection) :
  detections ≠ [] →
  let total_weight := sum_with (λ v, severity_weights (severity v)) violations in
  let max_possible_weight := 3 * Z.of_nat (length detections) in
  _calculate_compliance_score violations detections =
    truncated_score total_weight max_possible_weight ∧
  (∀ s, _calculate_compliance_score violations detections = Py.Returns s →
        ∃ percent, 0 ≤ percent ∧ s = Z.max 0 (100 - percent)) ∧
  (Z.of_nat (length violations) < 2 ^ 64 →
   ∃ s, _calculate_compliance_score violations detections = Py.Returns s).
Proof.
  intros Hds total_weight max_possible_weight.
  assert (Heq : _calculate_compliance_score violations detections =
                truncated_score total_weight max_possible_weight).
  { unfold max_possible_weight. rewrite Z.mul_comm. by apply score_unfold. }
  split; [done|]. split; [|apply score_returns].
  intros s. rewrite Heq. apply truncated_score_shape.
  - apply weights_bound.
  - unfold max_possible_weight. destruct detections; [done|]. cbn [length]. lia.
Qed.

(** C9, as stated, fails: one Medium violation on one detection scores
    34, where rounding the percentage 66.67 would give 33. *)
Lemma score_not_rounded :
  let v := violation_of "Sidewalk Width" Medium (Some 2) (Some 1800) in
  let d := detection_of "sidewalk" 1 in
  _calculate_compliance_score [v] [d] = Py.Returns 34 ∧
  rounded_score (sum_with (λ v, severity_weights (severity v)) [v])
                (3 * Z.of_nat (length [d])) = Py.Returns 33.
Proof. by vm_compute. Qed.

(** ** Checks on concrete values *)

(** The literals of the source are the binary64 numbers CPython reads:
    [0.12] is [0x1.eb851eb851eb8p-4], [8.33] is [0x1.0a8f5c28f5c29p+3],
    [1.3] is [0x1.4cccccccccccdp+0] and [0.6] is [0x1.3333333333333p-1]. *)
Example literals :
  Py.literal 12 100 = S754_finite false 8646911284551352 (-56) ∧
  MAX_CURB_RAMP_SLOPE = S754_finite false 4689373111999529 (-49) ∧
  Py.literal 13 10 = S754_finite false 5854679515581645 (-52) ∧
  Py.literal 6 10 = S754_finite false 5404319552844595 (-53).
Proof. by vm_compute. Qed.

(** [int] truncates toward zero and [round] takes the nearest integer,
    ties to even. *)
Example int_and_round :
  Py.int (Py.literal (-7) 2) = Py.Returns (-3) ∧
  Py.int (Py.literal 1248 10) = Py.Returns 124 ∧
  Py.round (Py.literal 1248 10) = Py.Returns 125 ∧
  Py.round (Py.literal 5 10) = Py.Returns 0 ∧
  Py.round (Py.literal 15 10) = Py.Returns 2 ∧
  Py.round (Py.literal 25 10) = Py.Returns 2 ∧
  Py.round (Py.literal (-35) 10) = Py.Returns (-4).
Proof. by vm_compute. Qed.

(** The percentage is computed in binary64: [87 / 300] is
    [0x1.28f5c28f5c28fp-2] and its product with 100 is
    [0x1.cffffffffffffp+4], just below 29, so that a total weight of 87
    over 100 detections scores 72 and not 71. *)
Example score_87_of_300 :
  Py.truediv_int 87 300 = Py.Returns (S754_finite false 5224175567749775 (-54)) ∧
  Py.fmul (S754_finite false 5224175567749775 (-54)) (Py.of_int 100)
    = S754_finite false 8162774324609023 (-48) ∧
  truncated_score 87 300 = Py.Returns 72.
Proof. by vm_compute. Qed.

Example timelines :
  _estimate_timeline 0 1 = Py.Returns "0 days" ∧
  _estimate_timeline 16 1 = Py.Returns "1 days" ∧
  _estimate_timeline 100 1 = Py.Returns "1 weeks" ∧
  _estimate_timeline 400 1 = Py.Returns "1-2 months" ∧
  _estimate_timeline 2000 1 = Py.Returns "6 months".
Proof. by vm_compute. Qed.

(** One curb ramp with a slope of 12 percent: one Curb Ramp Slope
    violation, severity High, priority 1, costed 2500 by the prioritizer;
    the estimator gives cost 2500, 16 labor hours, contingency 300 and
    2800 in total. *)
Example curb_ramp_scenario :
  let ms := {| slope := Some {[ 1 := Py.literal 120 10 ]}; cross_slope := None;
               width := None; detectable_warning := None;
               landing_size := None; max_gap := None;
               vertical_change := None; has_curb_ramps := None;
               marking_quality := None |} in
  let vs := evaluate ms [detection_of "curb_ramp" 1] in
  map (λ v, (type v, severity v, priority v, cost v)) vs
    = [("Curb Ramp Slope", High, Some 1, Some 2500)] ∧
  ∃ e vs', estimate vs "standard" = Py.Returns (e, vs') ∧
    total_cost e = 2500 ∧ e_labor_hours e = 16 ∧
    contingency e = Some 300 ∧ total_with_contingency e = Some 2800.
Proof. split; [by vm_compute|]. do 2 eexists. by vm_compute. Qed.

(** Costs 3500, 2500 and 800 with priorities 1, 1 and 2 under a budget
    of 4000: the second violation opens the second phase, whose
    remaining budget of 1500 also takes the third. *)
Example phased_scenario :
  let v1 := violation_of "Missing Curb Ramps" High (Some 1) (Some 3500) in
  let v2 := violation_of "Curb Ramp Slope" High (Some 1) (Some 2500) in
  let v3 := violation_of "Detectable Warning" High (Some 2) (Some 800) in
  ∃ plan, estimate_phased_approach [v3; v2; v1] 4000 = Py.Returns plan ∧
    map p_violations (phases plan) = [[v1]; [v2; v3]] ∧
    map p_cost (phases plan) = [3500; 3300] ∧
    map phase_number (phases plan) = [1; 2] ∧
    fully_funded plan = true.
Proof. eexists. by vm_compute. Qed.

(** ** Instances *)

Lemma prioritize_stable_sort_witness :
  let vs := [ violation_of "Crosswalk Markings" Medium (Some 2) None;
              violation_of "Trip Hazard" High None None ] in
  (∀ v p, v ∈ vs → priority v = Some p → 1 ≤ p ≤ 3) ∧
  (∀ v, v ∈ _prioritize_violations vs → ∃ p, priority v = Some p ∧ 1 ≤ p ≤ 3).
Proof.
  intros vs.
  assert (H : ∀ v p, v ∈ vs → priority v = Some p → 1 ≤ p ≤ 3).
  { intros v p Hv Hp.
    repeat (apply elem_of_cons in Hv as [->|Hv];
            [simpl in Hp; try discriminate Hp; injection Hp as <-; lia|]).
    by apply elem_of_nil in Hv. }
  split; [exact H|].
  destruct (prioritize_stable_sort vs) as (_ & _ & _ & _ & Hrange & _).
  exact (Hrange H).
Defined.

Lemma phased_accepts_any_budget_witness :
  let vs := [ violation_of "Trip Hazard" High (Some 1) (Some 1200) ] in
  (-500 < 0 ∧ Forall (λ v, 0 ≤ cost_of v) vs) ∧
  ∃ plan, estimate_phased_approach vs (-500) = Py.Returns plan ∧
    fully_funded plan = false.
Proof.
  intros vs.
  assert (Hb : -500 < 0) by lia.
  assert (Hvs : Forall (λ v, 0 ≤ cost_of v) vs).
  { repeat constructor. vm_compute. discriminate. }
  split; [done|].
  destruct (phased_accepts_any_budget vs (-500)) as (plan & Hplan & _ & Hff).
  exists plan. split; [exact Hplan|]. exact (Hff Hb Hvs).
Defined.

Lemma absent_measurement_verdicts_witness :
  let ms := {| slope := Some ∅; cross_slope := None; width := None;
               detectable_warning := Some ∅; landing_size := None;
               max_gap := None; vertical_change := None;
               has_curb_ramps := None; marking_quality := None |} in
  let d := detection_of "curb ramp" 7 in
  (absent (slope ms) (det_id_of d) ∧
   infrastructure_of (class_name d) = CurbRamp ∧
   detectable_warning ms = Some ∅ ∧
   (∅ : gmap Z bool) !! det_id_of d = None) ∧
  ("Curb Ramp Slope" ∉ types_of (evaluate ms [d])) ∧
  ("Detectable Warning" ∈ types_of (evaluate ms [d])).
Proof.
  intros ms d.
  assert (Ha : absent (slope ms) (det_id_of d)).
  { intros t Ht. injection Ht as <-. reflexivity. }
  assert (Hclass : infrastructure_of (class_name d) = CurbRamp) by reflexivity.
  assert (Ht : detectable_warning ms = Some ∅) by reflexivity.
  assert (Hi : (∅ : gmap Z bool) !! det_id_of d = None) by reflexivity.
  split; [done|].
  destruct (absent_measurement_verdicts ms d)
    as (Hslope & _ & _ & _ & _ & _ & _ & Hwarning & _).
  split; [exact (Hslope Ha)|exact (Hwarning ∅ Hclass Ht Hi)].
Defined.

Lemma sidewalk_width_verdict_witness :
  let w := Py.literal 359 10 in
  let d := detection_of "sidewalk" 3 in
  Py.truthy w = true ∧ Py.lt w (Py.of_int MIN_SIDEWALK_WIDTH) = true ∧
  "Sidewalk Width" ∈ types_of (evaluate (width_only 3 w) [d]).
Proof.
  intros w d.
  assert (Hclass : infrastructure_of (class_name d) = Sidewalk) by reflexivity.
  assert (Hw : width (width_only 3 w) = Some {[ 3 := w ]}) by reflexivity.
  assert (Ht : ({[ 3 := w ]} : gmap Z Py.float) !! det_id_of d = Some w)
    by reflexivity.
  assert (Hv : Py.truthy w = true) by reflexivity.
  assert (Hlt : Py.lt w (Py.of_int MIN_SIDEWALK_WIDTH) = true) by reflexivity.
  split; [exact Hv|]. split; [exact Hlt|].
  destruct (sidewalk_width_verdict _ d _ w Hclass Hw Ht Hv) as [Hiff _].
  apply Hiff. exact Hlt.
Defined.

Lemma estimate_contingency_truncates_witness :
  let vs := [ violation_of "Curb Ramp Slope" High (Some 1) None ] in
  (vs ≠ [] ∧ Z.of_nat (length vs) < 2 ^ 64) ∧
  ∃ e vs', estimate vs "standard" = Py.Returns (e, vs') ∧
    total_cost e = 2500 ∧
    contingency e = Some 300 ∧ total_with_contingency e = Some 2800 ∧
    ∃ k, Py.int_mul (total_cost e) (Py.literal 12 100) = Py.Returns k ∧
         contingency e = Some k.
Proof.
  intros vs.
  assert (Hne : vs ≠ []) by discriminate.
  assert (Hlen : Z.of_nat (length vs) < 2 ^ 64) by reflexivity.
  split; [done|].
  destruct (estimate_contingency_truncates vs "standard" Hne) as [Hret Hprop].
  destruct (Hret Hlen) as (e & vs' & He).
  exists e, vs'. split; [exact He|].
  destruct (Hprop e vs' He) as (_ & _ & (k & Hk & Hc & Ht) & _).
  vm_compute in He. injection He as <- <-.
  repeat (split; [reflexivity|]). exists k. split; [exact Hk|exact Hc].
Defined.

Lemma breakdown_omits_unknown_types_witness :
  let vs := [ violation_of "Trip Hazard" High (Some 1) None;
              violation_of "Blocked Path" Low (Some 3) None ] in
  (vs ≠ [] ∧ Z.of_nat (length vs) < 2 ^ 64) ∧
  ∃ e vs', estimate vs "standard" = Py.Returns (e, vs') ∧
    total_cost e = 2200 ∧ sum_with b_cost (breakdown e) = 1200 ∧
    (¬ Forall known vs → sum_with b_cost (breakdown e) < total_cost e).
Proof.
  intros vs.
  assert (Hne : vs ≠ []) by discriminate.
  assert (Hlen : Z.of_nat (length vs) < 2 ^ 64) by reflexivity.
  split; [done|].
  destruct (breakdown_omits_unknown_types vs "standard" Hne) as [Hret Hprop].
  destruct (Hret Hlen) as (e & vs' & He).
  exists e, vs'. split; [exact He|].
  destruct (Hprop e vs' He) as (_ & _ & _ & _ & _ & Hlt).
  vm_compute in He. injection He as <- <-.
  repeat (split; [reflexivity|]). exact Hlt.
Defined.

Lemma compliance_score_range_witness :
  let vs := [ violation_of "Cross Slope" High (Some 1) None ] in
  let ds := [ detection_of "sidewalk" 1; detection_of "crosswalk" 2 ] in
  Z.of_nat (length vs) < 2 ^ 64 ∧
  _calculate_compliance_score vs ds = Py.Returns 50 ∧ 0 ≤ 50 ≤ 100.
Proof.
  intros vs ds.
  assert (Hlen : Z.of_nat (length vs) < 2 ^ 64) by reflexivity.
  destruct (compliance_score_range vs ds) as (Hret & Hrange & _).
  destruct (Hret Hlen) as [s Hs].
  assert (H : _calculate_compliance_score vs ds = Py.Returns 50)
    by (vm_compute; reflexivity).
  split; [exact Hlen|]. split; [exact H|]. exact (Hrange 50 H).
Defined.

Lemma compliance_score_truncates_witness :
  let vs := [ violation_of "Cross Slope" High (Some 1) None ] in
  let ds := [ detection_of "sidewalk" 1; detection_of "crosswalk" 2 ] in
  (ds ≠ [] ∧ Z.of_nat (length vs) < 2 ^ 64 ∧
   _calculate_compliance_score vs ds = Py.Returns 50) ∧
  _calculate_compliance_score vs ds =
    truncated_score (sum_with (λ v, severity_weights (severity v)) vs)
                    (3 * Z.of_nat (length ds)) ∧
  (∃ percent, 0 ≤ percent ∧ 50 = Z.max 0 (100 - percent)) ∧
  ∃ s, _calculate_compliance_score vs ds = Py.Returns s.
Proof.
  intros vs ds.
  assert (H : ds ≠ []) by discriminate.
  assert (Hlen : Z.of_nat (length vs) < 2 ^ 64) by reflexivity.
  assert (H50 : _calculate_compliance_score vs ds = Py.Returns 50)
    by (vm_compute; reflexivity).
  destruct (compliance_score_truncates vs ds H) as (Heq & Hshape & Hret).
  split; [done|]. split; [exact Heq|].
  split; [exact (Hshape 50 H50)|exact (Hret Hlen)].
Defined.
